(** * Scan-session orchestration of the VitalSense front end

    A shallow embedding of the two [Step2_Scanning] components of the
    repository: the detector-equipped one (live face overlay, time-based
    fallback, face-lost restart) and the headless one (server status only).

    Conventions of the embedding.
    - JavaScript numbers are exact rationals ([Q]); millisecond clock
      readings ([Date.now()]) are integers ([Z]).
    - A React state variable or a [useRef] cell is a field of the component
      state record; a setter call is a record update.
    - [await]ed remote calls take their outcome ([Ok v] or [Throw]) as an
      input and append the request to the [calls] log.
    - One invocation of the interval callback is one [poll_tick]; the
      continuation that runs once [api.getStatus()] settles is [on_status].
    - Code that runs after the component has unmounted keeps its effects on
      refs, requests and timers and loses its state-setter calls
      ([setters_dropped]). *)

From Stdlib Require Import ZArith QArith Qminmax Qround String List Bool Lia.
From Stdlib Require Import Lqa.
Import ListNotations.
Open Scope Z_scope.

(** ** Shared vocabulary: remote calls, poll results, messages *)

(** What an [await]ed promise settles to. *)
Inductive Outcome (A : Type) : Type :=
| Ok (v : A)
| Throw.
Arguments Ok {A} v.
Arguments Throw {A}.

(** Requests sent through the [api] object. *)
Inductive ApiCall : Type :=
| ApiStartScan (algorithm : string) (duration : Z)
| ApiGetStatus
| ApiReset.

(** The JSON body of [GET /scan/status], as far as the components read it. *)
Record StatusData : Type := mkStatusData {
  status : string;
  progress_percent : option Q;
  server_message : option string
}.

(** The texts handed to [setMessage]; the template literals keep their
    interpolated number. *)
Inductive Message : Type :=
| MsgInitializingCamera        (* 'Initializing camera...' *)
| MsgCameraReady               (* 'Camera ready! Position your face in the frame.' *)
| MsgCameraDenied              (* 'Camera access denied' *)
| MsgPositionFaceFirst         (* 'Please position your face in the frame first' *)
| MsgFaceLost                  (* 'Face lost! Restarting scan...' *)
| MsgScanningComplete (pct : Z) (* `Scanning... ${pct}% complete` *)
| MsgKeepFace                  (* 'Keep your face in the frame!' *)
| MsgScanComplete              (* 'Scan complete! Processing results...' *)
| MsgResetting                 (* 'Resetting...' *)
| MsgReadyToScan               (* 'Ready to scan - position your face in the frame' *)
| MsgResetFailed               (* 'Reset failed, but you can try scanning again' *)
| MsgEmpty                     (* '' *)
| MsgStartingScan              (* 'Starting scan...' *)
| MsgScanInProgress            (* 'Scan in progress...' *)
| MsgScanning (pct : Z)        (* `Scanning... ${pct}%` *)
| MsgServer (text : string)    (* statusData.message *)
| MsgScanFailed                (* 'Scan failed' *)
| MsgError.                    (* 'Error' *)

(** The texts handed to [setError]. *)
Inductive ErrorText : Type :=
| ErrCamera           (* 'Failed to access camera. Please allow camera permissions and refresh.' *)
| ErrScanIssue        (* 'Scan encountered an issue. Please try again.' *)
| ErrStartFailed      (* 'Failed to start scan. Please check your connection and try again.' *)
| ErrStartFailedWith  (* 'Failed to start scan: ' + err.message *)
| ErrScanFailed       (* 'Scan failed. Please try again.' *)
| ErrLostConnection.  (* 'Lost connection to backend: ' + err.message *)

(** [Math.round]: the nearest integer, halves towards plus infinity, of the
    exact number. *)
Definition Math_round (x : Q) : Z := Qfloor (x + (1 # 2)).

(** The comparison [x < y] of two numbers, as a test. *)
Definition Qlt_bool (x y : Q) : bool := negb (Qle_bool y x).

(** [statusData.progress_percent || 0]. *)
Definition or_zero (p : option Q) : Q :=
  match p with
  | Some q => q
  | None => 0%Q
  end.

(** What the world supplies to one run of an interval callback;
    a callback reads the fields of the calls it makes. *)
Record Tick : Type := mkTick {
  t_now : Z;                       (* Date.now() on entry *)
  t_reset : Outcome unit;          (* api.reset(), if awaited *)
  t_start : Outcome unit;          (* api.startScan(), if awaited *)
  t_later : Z;                     (* Date.now() after those awaits *)
  t_status : Outcome StatusData    (* api.getStatus(), if awaited *)
}.

(** What happens to a mounted component: a processed video frame or a
    timer period. *)
Inductive Event : Type :=
| EvFrame (now : Z) (refs_ready face_found : bool)
| EvTick (t : Tick).

(** The phase a caller reads off a component. *)
Inductive Phase : Type := Idle | Running | Complete | Error.

(** ** The detector-equipped component (live face overlay) *)
Module Detector.

Record State : Type := mkState {
  (* useState *)
  cameraReady : bool;
  scanning : bool;
  progress : Q;
  faceDetected : bool;
  message : Message;
  error : option ErrorText;
  (* useRef *)
  streamRef : bool;            (* camera tracks are live *)
  pollIntervalRef : bool;      (* the registered interval is still active *)
  lastFaceSeenRef : Z;
  scanStartedRef : bool;
  (* locals of the running startScan call, captured by the interval callback *)
  scanStartTime : Z;
  consecutiveErrors : Z;
  faceDetected_captured : bool; (* the render-time [faceDetected] the callback closed over *)
  (* effects that leave the component *)
  calls : list ApiCall;
  onComplete_scheduled : bool   (* setTimeout(() => onComplete(), 1500) was issued *)
}.

Definition setCameraReady (b : bool) (st : State) : State :=
  mkState b (scanning st) (progress st) (faceDetected st) (message st) (error st)
    (streamRef st) (pollIntervalRef st) (lastFaceSeenRef st) (scanStartedRef st)
    (scanStartTime st) (consecutiveErrors st) (faceDetected_captured st)
    (calls st) (onComplete_scheduled st).

Definition setScanning (b : bool) (st : State) : State :=
  mkState (cameraReady st) b (progress st) (faceDetected st) (message st) (error st)
    (streamRef st) (pollIntervalRef st) (lastFaceSeenRef st) (scanStartedRef st)
    (scanStartTime st) (consecutiveErrors st) (faceDetected_captured st)
    (calls st) (onComplete_scheduled st).

Definition setProgress (p : Q) (st : State) : State :=
  mkState (cameraReady st) (scanning st) p (faceDetected st) (message st) (error st)
    (streamRef st) (pollIntervalRef st) (lastFaceSeenRef st) (scanStartedRef st)
    (scanStartTime st) (consecutiveErrors st) (faceDetected_captured st)
    (calls st) (onComplete_scheduled st).

Definition setFaceDetected (b : bool) (st : State) : State :=
  mkState (cameraReady st) (scanning st) (progress st) b (message st) (error st)
    (streamRef st) (pollIntervalRef st) (lastFaceSeenRef st) (scanStartedRef st)
    (scanStartTime st) (consecutiveErrors st) (faceDetected_captured st)
    (calls st) (onComplete_scheduled st).

Definition setMessage (m : Message) (st : State) : State :=
  mkState (cameraReady st) (scanning st) (progress st) (faceDetected st) m (error st)
    (streamRef st) (pollIntervalRef st) (lastFaceSeenRef st) (scanStartedRef st)
    (scanStartTime st) (consecutiveErrors st) (faceDetected_captured st)
    (calls st) (onComplete_scheduled st).

Definition setError (e : option ErrorText) (st : State) : State :=
  mkState (cameraReady st) (scanning st) (progress st) (faceDetected st) (message st) e
    (streamRef st) (pollIntervalRef st) (lastFaceSeenRef st) (scanStartedRef st)
    (scanStartTime st) (consecutiveErrors st) (faceDetected_captured st)
    (calls st) (onComplete_scheduled st).

Definition set_streamRef (b : bool) (st : State) : State :=
  mkState (cameraReady st) (scanning st) (progress st) (faceDetected st) (message st) (error st)
    b (pollIntervalRef st) (lastFaceSeenRef st) (scanStartedRef st)
    (scanStartTime st) (consecutiveErrors st) (faceDetected_captured st)
    (calls st) (onComplete_scheduled st).

Definition set_pollIntervalRef (b : bool) (st : State) : State :=
  mkState (cameraReady st) (scanning st) (progress st) (faceDetected st) (message st) (error st)
    (streamRef st) b (lastFaceSeenRef st) (scanStartedRef st)
    (scanStartTime st) (consecutiveErrors st) (faceDetected_captured st)
    (calls st) (onComplete_scheduled st).

Definition set_lastFaceSeenRef (t : Z) (st : State) : State :=
  mkState (cameraReady st) (scanning st) (progress st) (faceDetected st) (message st) (error st)
    (streamRef st) (pollIntervalRef st) t (scanStartedRef st)
    (scanStartTime st) (consecutiveErrors st) (faceDetected_captured st)
    (calls st) (onComplete_scheduled st).

Definition set_scanStartedRef (b : bool) (st : State) : State :=
  mkState (cameraReady st) (scanning st) (progress st) (faceDetected st) (message st) (error st)
    (streamRef st) (pollIntervalRef st) (lastFaceSeenRef st) b
    (scanStartTime st) (consecutiveErrors st) (faceDetected_captured st)
    (calls st) (onComplete_scheduled st).

Definition set_scanStartTime (t : Z) (st : State) : State :=
  mkState (cameraReady st) (scanning st) (progress st) (faceDetected st) (message st) (error st)
    (streamRef st) (pollIntervalRef st) (lastFaceSeenRef st) (scanStartedRef st)
    t (consecutiveErrors st) (faceDetected_captured st)
    (calls st) (onComplete_scheduled st).

Definition set_consecutiveErrors (n : Z) (st : State) : State :=
  mkState (cameraReady st) (scanning st) (progress st) (faceDetected st) (message st) (error st)
    (streamRef st) (pollIntervalRef st) (lastFaceSeenRef st) (scanStartedRef st)
    (scanStartTime st) n (faceDetected_captured st)
    (calls st) (onComplete_scheduled st).

Definition set_faceDetected_captured (b : bool) (st : State) : State :=
  mkState (cameraReady st) (scanning st) (progress st) (faceDetected st) (message st) (error st)
    (streamRef st) (pollIntervalRef st) (lastFaceSeenRef st) (scanStartedRef st)
    (scanStartTime st) (consecutiveErrors st) b
    (calls st) (onComplete_scheduled st).

(** [await api.X()]: the request goes out. *)
Definition call (c : ApiCall) (st : State) : State :=
  mkState (cameraReady st) (scanning st) (progress st) (faceDetected st) (message st) (error st)
    (streamRef st) (pollIntervalRef st) (lastFaceSeenRef st) (scanStartedRef st)
    (scanStartTime st) (consecutiveErrors st) (faceDetected_captured st)
    (calls st ++ [c]) (onComplete_scheduled st).

(** [setTimeout(() => onComplete(), 1500)]. *)
Definition schedule_onComplete (st : State) : State :=
  mkState (cameraReady st) (scanning st) (progress st) (faceDetected st) (message st) (error st)
    (streamRef st) (pollIntervalRef st) (lastFaceSeenRef st) (scanStartedRef st)
    (scanStartTime st) (consecutiveErrors st) (faceDetected_captured st)
    (calls st) true.

(** [clearInterval(pollIntervalRef.current)]. *)
Definition clearInterval (st : State) : State := set_pollIntervalRef false st.

(** The component as first rendered at clock reading [now]:
    [lastFaceSeenRef = useRef(Date.now())]. *)
Definition mount (now : Z) : State :=
  mkState false false 0%Q false MsgInitializingCamera None
    false false now false
    0 0 false
    [] false.

(** [initCamera], with the outcome of [getUserMedia]; on success the
    metadata handler has run. *)
Definition initCamera (r : Outcome unit) (st : State) : State :=
  match r with
  | Ok _ => setMessage MsgCameraReady (setCameraReady true (set_streamRef true st))
  | Throw => setMessage MsgCameraDenied (setError (Some ErrCamera) st)
  end.

(** [onFaceResults]: [refs_ready] is [canvas && video], [face_found] is
    [results.multiFaceLandmarks && results.multiFaceLandmarks.length > 0]. *)
Definition onFaceResults (now : Z) (refs_ready face_found : bool) (st : State) : State :=
  if negb refs_ready then st
  else if face_found
       then set_lastFaceSeenRef now (setFaceDetected true st)
       else setFaceDetected false st.

(** [Date.now() - lastFaceSeenRef.current]. *)
Definition timeSinceFace (now : Z) (st : State) : Z := now - lastFaceSeenRef st.

(** [timeSinceFace > 3000 && scanStartedRef.current]. *)
Definition face_lost (now : Z) (st : State) : bool :=
  (timeSinceFace now st >? 3000) && scanStartedRef st.

Section WithDuration.

(** [const [scanDuration] = useState(45)]: never set again. *)
Variable scanDuration : Z.

(** [Math.min((timeElapsed / (scanDuration * 1000)) * 100, 99)]. *)
Definition timeBasedProgress (timeElapsed : Z) : Q :=
  Qmin ((inject_Z timeElapsed / inject_Z (scanDuration * 1000)) * 100) 99.

(** The five lines every completion path of the callback shares. *)
Definition finish (st : State) : State :=
  schedule_onComplete
    (setMessage MsgScanComplete
      (setProgress 100
        (setScanning false
          (clearInterval st)))).

(** The message both branches of the callback set after [setProgress]. *)
Definition scanning_message (p : Q) (st : State) : State :=
  if faceDetected_captured st
  then setMessage (MsgScanningComplete (Math_round p)) st
  else setMessage MsgKeepFace st.

(** The [try] body after [await api.getStatus()] has resolved. *)
Definition on_status_ok (timeElapsed : Z) (statusData : StatusData) (st : State) : State :=
  let timeBasedProgress := timeBasedProgress timeElapsed in
  let st := set_consecutiveErrors 0 st in
  let apiProgress := or_zero (progress_percent statusData) in
  let currentProgress := Qmax apiProgress timeBasedProgress in
  let st := setProgress currentProgress st in
  let st := scanning_message currentProgress st in
  if timeElapsed >=? scanDuration * 1000 then finish st
  else if String.eqb (status statusData) "complete" then finish st
  else if String.eqb (status statusData) "error"
          && Qlt_bool (inject_Z timeElapsed) (inject_Z (scanDuration * 1000) * (8 # 10))
       then set_scanStartedRef false
              (setError (Some ErrScanIssue)
                (setScanning false
                  (clearInterval st)))
       else st.

(** The [catch] body: [api.getStatus()] threw. *)
Definition on_status_throw (timeElapsed : Z) (st : State) : State :=
  let timeBasedProgress := timeBasedProgress timeElapsed in
  let st := set_consecutiveErrors (consecutiveErrors st + 1) st in
  if (consecutiveErrors st >? 5) && Qlt_bool 50 timeBasedProgress
  then finish st
  else
    let st := setProgress timeBasedProgress st in
    let st := scanning_message timeBasedProgress st in
    if timeElapsed >=? scanDuration * 1000 then finish st
    else st.

(** The continuation of the callback once the status request has settled. *)
Definition on_status (timeElapsed : Z) (r : Outcome StatusData) (st : State) : State :=
  match r with
  | Ok statusData => on_status_ok timeElapsed statusData st
  | Throw => on_status_throw timeElapsed st
  end.

(** The face-lost branch: "reset scan". *)
Definition restart (t : Tick) (st : State) : State :=
  let st := setMessage MsgFaceLost st in
  let st := setProgress 0 st in
  let st := call ApiReset st in
  let st :=
    match t_reset t with
    | Ok _ =>
        let st := call (ApiStartScan "pos" scanDuration) st in
        match t_start t with
        | Ok _ => set_consecutiveErrors 0 st
        | Throw => st
        end
    | Throw => st
    end in
  set_lastFaceSeenRef (t_later t) st.

(** One run of the callback handed to [setInterval]. *)
Definition poll_tick (t : Tick) (st : State) : State :=
  if face_lost (t_now t) st then restart t st
  else
    let timeElapsed := t_now t - scanStartTime st in
    on_status timeElapsed (t_status t) (call ApiGetStatus st).

(** The timer runs the callback only while the interval is registered. *)
Definition fire (t : Tick) (st : State) : State :=
  if pollIntervalRef st then poll_tick t st else st.

Definition step (ev : Event) (st : State) : State :=
  match ev with
  | EvFrame now refs_ready face_found => onFaceResults now refs_ready face_found st
  | EvTick t => fire t st
  end.

Fixpoint run (evs : list Event) (st : State) : State :=
  match evs with
  | [] => st
  | ev :: evs' => run evs' (step ev st)
  end.

(** [startScan] up to its [await api.startScan('pos', scanDuration)]. *)
Definition startScan_begin (now : Z) (st : State) : State :=
  let captured := faceDetected st in
  let st := setScanning true st in
  let st := set_scanStartedRef true st in
  let st := setProgress 0 st in
  let st := setError None st in
  let st := set_scanStartTime now st in
  let st := set_consecutiveErrors 0 st in
  let st := set_faceDetected_captured captured st in
  call (ApiStartScan "pos" scanDuration) st.

(** [startScan] after that [await]: register the interval, or the outer
    [catch]. *)
Definition startScan_resume (r : Outcome unit) (st : State) : State :=
  match r with
  | Ok _ => set_pollIntervalRef true st
  | Throw =>
      set_scanStartedRef false
        (setScanning false
          (setError (Some ErrStartFailed) st))
  end.

Definition startScan (now : Z) (r : Outcome unit) (st : State) : State :=
  if negb (faceDetected st)
  then setMessage MsgPositionFaceFirst st
  else startScan_resume r (startScan_begin now st).

End WithDuration.






(** The caller-facing snapshot: an error shown, a scan under way (from the
    press of Start on), a completion handed to the parent, or none of
    these. *)
Definition phase (st : State) : Phase :=
  match error st with
  | Some _ => Error
  | None =>
      if scanning st then Running
      else if onComplete_scheduled st then Complete
      else Idle
  end.

(** [handleRetry], the Retry button of the error panel, with the outcome
    of its [api.reset()]. *)
Definition handleRetry (r : Outcome unit) (st : State) : State :=
  let st := setError None st in
  let st := setScanning false st in
  let st := setProgress 0 st in
  let st := setMessage MsgResetting st in
  let st := set_scanStartedRef false st in
  let st := call ApiReset st in
  match r with
  | Ok _ => setMessage MsgReadyToScan st
  | Throw => setMessage MsgResetFailed st
  end.

End Detector.

(** ** The headless component (no browser-side face detection) *)
Module Headless.

Record State : Type := mkState {
  (* useState *)
  scanning : bool;
  progress : Q;
  message : Message;
  error : option ErrorText;
  (* useRef *)
  pollIntervalRef : bool;      (* the registered interval is still active *)
  (* effects that leave the component *)
  calls : list ApiCall;
  onComplete_scheduled : bool
}.

Definition setScanning (b : bool) (st : State) : State :=
  mkState b (progress st) (message st) (error st)
    (pollIntervalRef st) (calls st) (onComplete_scheduled st).

Definition setProgress (p : Q) (st : State) : State :=
  mkState (scanning st) p (message st) (error st)
    (pollIntervalRef st) (calls st) (onComplete_scheduled st).

Definition setMessage (m : Message) (st : State) : State :=
  mkState (scanning st) (progress st) m (error st)
    (pollIntervalRef st) (calls st) (onComplete_scheduled st).

Definition setError (e : option ErrorText) (st : State) : State :=
  mkState (scanning st) (progress st) (message st) e
    (pollIntervalRef st) (calls st) (onComplete_scheduled st).

Definition set_pollIntervalRef (b : bool) (st : State) : State :=
  mkState (scanning st) (progress st) (message st) (error st)
    b (calls st) (onComplete_scheduled st).

Definition call (c : ApiCall) (st : State) : State :=
  mkState (scanning st) (progress st) (message st) (error st)
    (pollIntervalRef st) (calls st ++ [c]) (onComplete_scheduled st).

Definition schedule_onComplete (st : State) : State :=
  mkState (scanning st) (progress st) (message st) (error st)
    (pollIntervalRef st) (calls st) true.

Definition clearInterval (st : State) : State := set_pollIntervalRef false st.

Definition mount : State :=
  mkState false 0%Q MsgEmpty None false [] false.

(** [statusData.message || `Scanning... ${Math.round(currentProgress)}%`]. *)
Definition status_message (statusData : StatusData) (currentProgress : Q) : Message :=
  match server_message statusData with
  | Some text => if String.eqb text "" then MsgScanning (Math_round currentProgress)
                 else MsgServer text
  | None => MsgScanning (Math_round currentProgress)
  end.

Section WithDuration.

Variable scanDuration : Z.

Definition startScan (r : Outcome unit) (st : State) : State :=
  let st := setScanning true st in
  let st := setProgress 0 st in
  let st := setError None st in
  let st := setMessage MsgStartingScan st in
  let st := call (ApiStartScan "pos" scanDuration) st in
  match r with
  | Ok _ => set_pollIntervalRef true (setMessage MsgScanInProgress st)
  | Throw =>
      setMessage MsgError
        (setScanning false
          (setError (Some ErrStartFailedWith) st))
  end.

End WithDuration.

(** One run of the callback handed to [setInterval]: it reads no clock. *)
Definition poll_tick (t : Tick) (st : State) : State :=
  let st := call ApiGetStatus st in
  match t_status t with
  | Ok statusData =>
      let currentProgress := or_zero (progress_percent statusData) in
      let st := setProgress currentProgress st in
      let st := setMessage (status_message statusData currentProgress) st in
      if String.eqb (status statusData) "complete"
      then schedule_onComplete
             (setMessage MsgScanComplete
               (setScanning false
                 (clearInterval st)))
      else if String.eqb (status statusData) "error"
      then setMessage MsgScanFailed
             (setError (Some ErrScanFailed)
               (setScanning false
                 (clearInterval st)))
      else st
  | Throw =>
      setScanning false
        (clearInterval
          (setError (Some ErrLostConnection) st))
  end.

Definition fire (t : Tick) (st : State) : State :=
  if pollIntervalRef st then poll_tick t st else st.

Fixpoint run (ts : list Tick) (st : State) : State :=
  match ts with
  | [] => st
  | t :: ts' => run ts' (fire t st)
  end.

Definition phase (st : State) : Phase :=
  match error st with
  | Some _ => Error
  | None =>
      if scanning st then Running
      else if onComplete_scheduled st then Complete
      else Idle
  end.

End Headless.

(** ** Concrete sessions used below *)

(** A status body with the given [status] and [progress_percent]. *)
Definition status_body (s : string) (p : option Q) : StatusData :=
  mkStatusData s p None.

(** A timer period at clock reading [now] whose status request settles to
    [r]; the restart requests, were they made, succeed 50 ms later. *)
Definition tick_at (now : Z) (r : Outcome StatusData) : Tick :=
  mkTick now (Ok tt) (Ok tt) (now + 50) r.

(** The detector-equipped component mounted at clock 0, a face seen in the
    first frame, then the Start button pressed and the start acknowledged. *)
Definition started45 : Detector.State :=
  Detector.startScan 45 0 (Ok tt)
    (Detector.onFaceResults 0 true true
      (Detector.initCamera (Ok tt) (Detector.mount 0))).

(** The headless component with the Start button pressed and the start
    acknowledged. *)
Definition headless_started45 : Headless.State :=
  Headless.startScan 45 (Ok tt) Headless.mount.


(** The formula of the specification, in its words:
    [min(elapsed / (durationSeconds * 1000) * 100, 99)]. *)
Definition spec_timeBasedProgress (durationSeconds elapsed : Z) : Q :=
  Qmin (inject_Z elapsed / (inject_Z durationSeconds * 1000) * 100) 99.

(** A timer period of a session in state [st] on which the status request
    fails while the face was seen within the last 3 s, time-based progress
    is above 50 and the configured duration has not yet elapsed. *)
Definition failing_tick (D : Z) (st : Detector.State) (t : Tick) : Prop :=
  t_status t = Throw /\
  t_now t - Detector.lastFaceSeenRef st <= 3000 /\
  (50 < Detector.timeBasedProgress D (t_now t - Detector.scanStartTime st))%Q /\
  t_now t - Detector.scanStartTime st < D * 1000.

(** The number of timer periods among the events. *)
Fixpoint ticks_in (evs : list Event) : nat :=
  match evs with
  | [] => O
  | EvFrame _ _ _ :: evs' => ticks_in evs'
  | EvTick _ :: evs' => S (ticks_in evs')
  end.

(** Every timer period among the events is a [failing_tick] at the moment
    it comes up; frames in between are arbitrary. *)
Fixpoint failing_run (D : Z) (st : Detector.State) (evs : list Event) : Prop :=
  match evs with
  | [] => True
  | ev :: evs' =>
      match ev with
      | EvFrame _ _ _ => True
      | EvTick t => failing_tick D st t
      end /\ failing_run D (Detector.step D ev st) evs'
  end.

(** [n] poll failures, 500 ms apart, the first at clock reading [from], a
    frame with the face in it 100 ms before each. *)
Fixpoint failures (n : nat) (from : Z) : list Event :=
  match n with
  | O => []
  | S n' => EvFrame (from - 100) true true
            :: EvTick (tick_at from Throw)
            :: failures n' (from + 500)
  end.

(** ** The rest of the screens *)

(** [Math.max(0, scanDuration - Math.floor((progress / 100) * scanDuration))],
    the "Time remaining" line of both scanning screens.  The quotient is
    exact here; where it is a whole number the code, rounding each
    division, can floor to one less. *)
Definition time_remaining (scanDuration : Z) (progress : Q) : Z :=
  Z.max 0 (scanDuration - Qfloor (progress / 100 * inject_Z scanDuration)).

(** *** The face overlay drawn by [onFaceResults] *)
Module FaceOverlay.

(** A number that may be [Infinity] or [-Infinity]. *)
Inductive JsNum : Type :=
| Fin (q : Q)
| PosInf
| NegInf.

(** One entry of [results.multiFaceLandmarks[0]]: normalised coordinates. *)
Record Landmark : Type := mkLandmark {
  lm_x : Q;
  lm_y : Q
}.

(** [Math.min(acc, v)] for a finite [v]. *)
Definition Math_min (acc : JsNum) (v : Q) : JsNum :=
  match acc with
  | Fin q => Fin (Qmin q v)
  | PosInf => Fin v
  | NegInf => NegInf
  end.

(** [a - b] for a finite [a]. *)
Definition minus (a : Q) (b : JsNum) : JsNum :=
  match b with
  | Fin q => Fin (a - q)
  | PosInf => NegInf
  | NegInf => PosInf
  end.

(** The four accumulators of [getFaceBoundingBox]. *)
Record Extent : Type := mkExtent {
  minX : JsNum;
  minY : JsNum;
  maxX : Q;
  maxY : Q
}.

Record Box : Type := mkBox {
  x : JsNum;
  y : JsNum;
  width : JsNum;
  height : JsNum
}.

(** The body of the [forEach]. *)
Definition extend (canvas_width canvas_height : Z) (acc : Extent) (lm : Landmark)
  : Extent :=
  let px := (lm_x lm * inject_Z canvas_width)%Q in
  let py := (lm_y lm * inject_Z canvas_height)%Q in
  mkExtent (Math_min (minX acc) px) (Math_min (minY acc) py)
           (Qmax (maxX acc) px) (Qmax (maxY acc) py).

Definition getFaceBoundingBox (landmarks : list Landmark)
    (canvas_width canvas_height : Z) : Box :=
  let acc := fold_left (extend canvas_width canvas_height) landmarks
               (mkExtent PosInf PosInf 0 0) in
  mkBox (minX acc) (minY acc)
        (minus (maxX acc) (minX acc)) (minus (maxY acc) (minY acc)).

Definition FACE_OVAL : list nat :=
  [10; 338; 297; 332; 284; 251; 389; 356; 454; 323; 361; 288; 397; 365; 379;
   378; 400; 377; 152; 148; 176; 149; 150; 136; 172; 58; 132; 93; 234; 127;
   162; 21; 54; 103; 67; 109]%nat.

(** Calls made on the 2D context. *)
Inductive CanvasCmd : Type :=
| BeginPath
| MoveTo (px py : Q)
| LineTo (px py : Q)
| ClosePath
| Stroke.

(** The [for] loop of [drawFaceMesh] from some index on: the calls made,
    and whether the loop ran to its end; reading [.x] of a landmark that is
    not there throws. *)
Fixpoint trace_oval (first : bool) (indices : list nat)
    (landmarks : list Landmark) (canvas_width canvas_height : Z)
  : list CanvasCmd * bool :=
  match indices with
  | [] => ([], true)
  | k :: rest =>
      match nth_error landmarks k with
      | None => ([], false)
      | Some point =>
          let px := (lm_x point * inject_Z canvas_width)%Q in
          let py := (lm_y point * inject_Z canvas_height)%Q in
          let cmd := if first then MoveTo px py else LineTo px py in
          let (cmds, finished) :=
            trace_oval false rest landmarks canvas_width canvas_height in
          (cmd :: cmds, finished)
      end
  end.

(** [drawFaceMesh]: the context calls, and [true] unless it threw. *)
Definition drawFaceMesh (landmarks : list Landmark) (canvas_width canvas_height : Z)
  : list CanvasCmd * bool :=
  let (cmds, finished) :=
    trace_oval true FACE_OVAL landmarks canvas_width canvas_height in
  if finished then (BeginPath :: cmds ++ [ClosePath; Stroke], true)
  else (BeginPath :: cmds, false).

End FaceOverlay.

(** *** Step 1: the user information form *)
Module Step1.

(** The form; a number input holds the empty string ([None]) or a number. *)
Record Form : Type := mkForm {
  age : option Q;
  gender : string;
  height_cm : option Q;
  weight_kg : option Q
}.

Inductive Effect : Type :=
| ApiSetMetadata (data : Form)
| OnNext
| Alert.

Record State : Type := mkState {
  form : Form;
  errors : list (string * string);
  loading : bool;
  effects : list Effect
}.

(** [!v || v < lo || v > hi]. *)
Definition rejected (v : option Q) (lo hi : Q) : bool :=
  match v with
  | None => true
  | Some q => Qlt_bool q lo || Qlt_bool hi q
  end.

(** The [errs] object [validate] builds, as its entries in insertion
    order. *)
Definition validate_errs (f : Form) : list (string * string) :=
  let errs := [] in
  let errs := if rejected (age f) 10 120
              then errs ++ [("age"%string, "Age must be between 10 and 120"%string)]
              else errs in
  let errs := if rejected (height_cm f) 100 250
              then errs ++ [("height_cm"%string, "Height must be between 100 and 250 cm"%string)]
              else errs in
  let errs := if rejected (weight_kg f) 20 300
              then errs ++ [("weight_kg"%string, "Weight must be between 20 and 300 kg"%string)]
              else errs in
  errs.

(** [validate]: the state after [setErrors(errs)] and the returned flag. *)
Definition validate (st : State) : State * bool :=
  let errs := validate_errs (form st) in
  (mkState (form st) errs (loading st) (effects st),
   Nat.eqb (length errs) 0).

(** [handleSubmit], with the outcome of [api.setMetadata(form)]. *)
Definition handleSubmit (r : Outcome unit) (st : State) : State :=
  let (st, valid) := validate st in
  if negb valid then st
  else
    let st := mkState (form st) (errors st) true (effects st) in
    let st := mkState (form st) (errors st) (loading st)
                (effects st ++ [ApiSetMetadata (form st)]) in
    let st :=
      match r with
      | Ok _ => mkState (form st) (errors st) (loading st) (effects st ++ [OnNext])
      | Throw => mkState (form st) (errors st) (loading st) (effects st ++ [Alert])
      end in
    mkState (form st) (errors st) false (effects st).

End Step1.

Import Detector.

(** ** Elementary facts *)

Lemma Qlt_bool_true (x y : Q) : Qlt_bool x y = true <-> (x < y)%Q.
Proof.
  unfold Qlt_bool. rewrite negb_true_iff.
  split; intro H.
  - apply Qnot_le_lt. intro Hle. apply Qle_bool_iff in Hle. congruence.
  - destruct (Qle_bool y x) eqn:E; [|reflexivity].
    apply Qle_bool_iff in E. exfalso. exact (Qlt_not_le _ _ H E).
Qed.

Lemma Qlt_bool_false (x y : Q) : Qlt_bool x y = false <-> (y <= x)%Q.
Proof.
  unfold Qlt_bool. rewrite negb_false_iff. apply Qle_bool_iff.
Qed.

Lemma inject_Z_pos (z : Z) : 0 < z -> (0 < inject_Z z)%Q.
Proof. intro H. rewrite (Zlt_Qlt 0 z) in H. exact H. Qed.

(** The uncapped ratio [(timeElapsed / (scanDuration * 1000)) * 100]. *)
Lemma ratio_monotone (D e1 e2 : Z) :
  0 < D -> e1 <= e2 ->
  (inject_Z e1 / inject_Z (D * 1000) * 100 <= inject_Z e2 / inject_Z (D * 1000) * 100)%Q.
Proof.
  intros HD Hle.
  apply Qmult_le_compat_r; [|discriminate].
  unfold Qdiv. apply Qmult_le_compat_r.
  - rewrite <- Zle_Qle. exact Hle.
  - apply Qlt_le_weak, Qinv_lt_0_compat, inject_Z_pos. lia.
Qed.

Lemma ratio_at_duration (D : Z) :
  0 < D -> (inject_Z (D * 1000) / inject_Z (D * 1000) * 100 == 100)%Q.
Proof.
  intro HD. unfold Qdiv. rewrite Qmult_inv_r; [reflexivity|].
  intro H. pose proof (inject_Z_pos (D * 1000) ltac:(lia)) as Hp.
  rewrite H in Hp. discriminate.
Qed.

Lemma timeBasedProgress_le_99 (D e : Z) : (timeBasedProgress D e <= 99)%Q.
Proof. unfold timeBasedProgress. apply Q.le_min_r. Qed.

Lemma timeBasedProgress_monotone (D e1 e2 : Z) :
  0 < D -> e1 <= e2 -> (timeBasedProgress D e1 <= timeBasedProgress D e2)%Q.
Proof.
  intros HD Hle. unfold timeBasedProgress.
  apply Q.min_le_compat_r. apply ratio_monotone; assumption.
Qed.

Lemma timeBasedProgress_saturated (D e : Z) :
  0 < D -> D * 1000 <= e -> (timeBasedProgress D e == 99)%Q.
Proof.
  intros HD Hle. unfold timeBasedProgress.
  apply Q.min_r.
  apply Qle_trans with (inject_Z (D * 1000) / inject_Z (D * 1000) * 100)%Q.
  - rewrite ratio_at_duration by assumption. discriminate.
  - apply ratio_monotone; assumption.
Qed.

(** A headless timer period signals completion only on a "complete"
    status. *)
Lemma headless_tick_completion (t : Tick) (st : Headless.State) :
  Headless.onComplete_scheduled (Headless.poll_tick t st) = true ->
  Headless.onComplete_scheduled st = true \/
  exists sd, t_status t = Ok sd /\ status sd = "complete"%string.
Proof.
  unfold Headless.poll_tick. cbv zeta.
  destruct (t_status t) as [sd|].
  - destruct (String.eqb_spec (status sd) "complete") as [Hc|Hc].
    + intros _. right. exists sd. auto.
    + destruct (String.eqb (status sd) "error"); simpl; auto.
  - simpl. auto.
Qed.

(** The face-lost test is false once the last sighting is recent. *)
Lemma face_lost_recent (now : Z) (st : State) :
  now - lastFaceSeenRef st <= 3000 -> face_lost now st = false.
Proof.
  intro H. unfold face_lost, timeSinceFace.
  destruct (Z.gtb_spec (now - lastFaceSeenRef st) 3000); [lia|reflexivity].
Qed.

Lemma face_lost_true (now : Z) (st : State) :
  face_lost now st = true <->
  3000 < now - lastFaceSeenRef st /\ scanStartedRef st = true.
Proof.
  unfold face_lost, timeSinceFace. rewrite andb_true_iff.
  destruct (Z.gtb_spec (now - lastFaceSeenRef st) 3000); intuition (try lia; try discriminate).
Qed.

(** Every completion path ends in the same snapshot. *)
Lemma finish_fields (st : State) :
  scanning (finish st) = false /\
  progress (finish st) = 100%Q /\
  message (finish st) = MsgScanComplete /\
  pollIntervalRef (finish st) = false /\
  onComplete_scheduled (finish st) = true /\
  error (finish st) = error st /\
  scanStartTime (finish st) = scanStartTime st.
Proof. repeat split. Qed.

(** Past the configured duration the continuation completes, whatever the
    status request settled to. *)
Lemma on_status_time_limit (D e : Z) (r : Outcome StatusData) (st : State) :
  D * 1000 <= e -> exists st0, on_status D e r st = finish st0 /\ error st0 = error st.
Proof.
  intro He. destruct r as [sd|]; simpl.
  - unfold on_status_ok.
    destruct (Z.geb_spec e (D * 1000)); [|lia].
    eexists; split; [reflexivity|].
    unfold scanning_message. destruct (faceDetected_captured _); reflexivity.
  - unfold on_status_throw.
    destruct (_ && _).
    + eexists; split; [reflexivity|reflexivity].
    + destruct (Z.geb_spec e (D * 1000)); [|lia].
      eexists; split; [reflexivity|].
      unfold scanning_message. destruct (faceDetected_captured _); reflexivity.
Qed.

Lemma poll_tick_time_limit (D : Z) (t : Tick) (st : State) :
  face_lost (t_now t) st = false ->
  D * 1000 <= t_now t - scanStartTime st ->
  let st' := poll_tick D t st in
  scanning st' = false /\ progress st' = 100%Q /\ message st' = MsgScanComplete /\
  pollIntervalRef st' = false /\ onComplete_scheduled st' = true /\
  error st' = error st.
Proof.
  intros Hface He. unfold poll_tick. rewrite Hface.
  destruct (on_status_time_limit D (t_now t - scanStartTime st) (t_status t)
              (call ApiGetStatus st) He) as [st0 [Heq Herr]].
  cbv zeta. simpl scanStartTime in Heq. rewrite Heq.
  destruct (finish_fields st0) as (H1 & H2 & H3 & H4 & H5 & H6 & _).
  rewrite H6, Herr. auto 10.
Qed.

(** A failed status request below the failure budget, or at most half way
    by the clock, only advances the counter and shows time-based progress. *)
Lemma poll_tick_throw_absorbed (D : Z) (t : Tick) (st : State) :
  t_status t = Throw ->
  face_lost (t_now t) st = false ->
  consecutiveErrors st + 1 <= 5 \/
    (timeBasedProgress D (t_now t - scanStartTime st) <= 50)%Q ->
  t_now t - scanStartTime st < D * 1000 ->
  poll_tick D t st =
    scanning_message (timeBasedProgress D (t_now t - scanStartTime st))
      (setProgress (timeBasedProgress D (t_now t - scanStartTime st))
        (set_consecutiveErrors (consecutiveErrors st + 1)
          (call ApiGetStatus st))).
Proof.
  intros Hthrow Hface Hbudget He.
  unfold poll_tick. rewrite Hface, Hthrow. cbv zeta. simpl on_status.
  unfold on_status_throw. cbv zeta. simpl consecutiveErrors. simpl scanStartTime.
  assert (Hcond : (consecutiveErrors st + 1 >? 5)
                  && Qlt_bool 50 (timeBasedProgress D (t_now t - scanStartTime st))
                  = false).
  { apply andb_false_iff. destruct Hbudget as [Hc|Hp].
    - left. destruct (Z.gtb_spec (consecutiveErrors st + 1) 5); [lia|reflexivity].
    - right. apply Qlt_bool_false. exact Hp. }
  rewrite Hcond.
  destruct (Z.geb_spec (t_now t - scanStartTime st) (D * 1000)); [lia|reflexivity].
Qed.

(** A failed status request past the failure budget and past half way by
    the clock completes the scan. *)
Lemma poll_tick_throw_forced (D : Z) (t : Tick) (st : State) :
  t_status t = Throw ->
  face_lost (t_now t) st = false ->
  5 < consecutiveErrors st + 1 ->
  (50 < timeBasedProgress D (t_now t - scanStartTime st))%Q ->
  poll_tick D t st =
    finish (set_consecutiveErrors (consecutiveErrors st + 1) (call ApiGetStatus st)).
Proof.
  intros Hthrow Hface Hc Hp.
  unfold poll_tick. rewrite Hface, Hthrow. cbv zeta. simpl on_status.
  unfold on_status_throw. cbv zeta. simpl consecutiveErrors. simpl scanStartTime.
  assert (Hcond : (consecutiveErrors st + 1 >? 5)
                  && Qlt_bool 50 (timeBasedProgress D (t_now t - scanStartTime st))
                  = true).
  { apply andb_true_iff. split.
    - destruct (Z.gtb_spec (consecutiveErrors st + 1) 5); [reflexivity|lia].
    - apply Qlt_bool_true. exact Hp. }
  rewrite Hcond. reflexivity.
Qed.

Lemma scanning_message_frame (p : Q) (st : State) :
  let st' := scanning_message p st in
  scanning st' = scanning st /\ progress st' = progress st /\
  error st' = error st /\ pollIntervalRef st' = pollIntervalRef st /\
  onComplete_scheduled st' = onComplete_scheduled st /\
  consecutiveErrors st' = consecutiveErrors st /\
  lastFaceSeenRef st' = lastFaceSeenRef st /\
  scanStartTime st' = scanStartTime st /\
  scanStartedRef st' = scanStartedRef st /\
  calls st' = calls st.
Proof.
  unfold scanning_message. destruct (faceDetected_captured st); cbv zeta; auto 12.
Qed.

(** A processed frame touches only the presence fields. *)
Lemma onFaceResults_frame (now : Z) (ready found : bool) (st : State) :
  let st' := onFaceResults now ready found st in
  pollIntervalRef st' = pollIntervalRef st /\ scanning st' = scanning st /\
  onComplete_scheduled st' = onComplete_scheduled st /\ error st' = error st /\
  consecutiveErrors st' = consecutiveErrors st /\
  progress st' = progress st /\ message st' = message st.
Proof.
  unfold onFaceResults. destruct ready, found; cbv zeta; simpl; auto 10.
Qed.

(** Once the interval is cleared, frames and timer periods leave the
    snapshot alone. *)
Lemma run_stopped (D : Z) (evs : list Event) :
  forall st : State,
  pollIntervalRef st = false ->
  let st' := run D evs st in
  pollIntervalRef st' = false /\ scanning st' = scanning st /\
  progress st' = progress st /\ message st' = message st /\
  onComplete_scheduled st' = onComplete_scheduled st /\ error st' = error st.
Proof.
  induction evs as [|ev evs IH]; intros st Hstop; cbv zeta.
  - simpl. auto 10.
  - cbn [run]. destruct ev as [now ready found|t].
    + destruct (onFaceResults_frame now ready found st)
        as (F1 & F2 & F3 & F4 & _ & F6 & F7).
      simpl step.
      destruct (IH (onFaceResults now ready found st) ltac:(congruence))
        as (G1 & G2 & G3 & G4 & G5 & G6).
      rewrite G1, G2, G3, G4, G5, G6, F2, F3, F4, F6, F7. auto 10.
    + simpl step. unfold fire. rewrite Hstop. apply IH. exact Hstop.
Qed.

(** A run whose failed requests stay within the budget of five only
    counts them. *)
Lemma failures_within_budget (D : Z) (evs : list Event) :
  forall st : State,
  pollIntervalRef st = true ->
  failing_run D st evs ->
  consecutiveErrors st + Z.of_nat (ticks_in evs) <= 5 ->
  let st' := run D evs st in
  pollIntervalRef st' = true /\ scanning st' = scanning st /\
  onComplete_scheduled st' = onComplete_scheduled st /\ error st' = error st /\
  consecutiveErrors st' = consecutiveErrors st + Z.of_nat (ticks_in evs).
Proof.
  induction evs as [|ev evs IH]; intros st Hpoll Hall Hbudget.
  - simpl. rewrite Z.add_0_r. auto 10.
  - destruct Hall as [Hev Hrest]. destruct ev as [now ready found|t].
    + destruct (onFaceResults_frame now ready found st)
        as (F1 & F2 & F3 & F4 & F5 & _).
      cbn [run ticks_in] in *. simpl step in *.
      destruct (IH (onFaceResults now ready found st) ltac:(congruence) Hrest
                  ltac:(rewrite F5; exact Hbudget))
        as (G1 & G2 & G3 & G4 & G5).
      cbv zeta. rewrite G2, G3, G4, G5, F2, F3, F4, F5. auto 10.
    + destruct Hev as (Hthrow & Hseen & Hhalf & Hbefore).
      pose proof (face_lost_recent _ _ Hseen) as Hface.
      cbn [ticks_in] in Hbudget. rewrite Nat2Z.inj_succ in Hbudget.
      assert (Hstep : step D (EvTick t) st =
                scanning_message (timeBasedProgress D (t_now t - scanStartTime st))
                  (setProgress (timeBasedProgress D (t_now t - scanStartTime st))
                    (set_consecutiveErrors (consecutiveErrors st + 1)
                      (call ApiGetStatus st)))).
      { simpl. unfold fire. rewrite Hpoll.
        apply poll_tick_throw_absorbed; try assumption. left. lia. }
      cbn [run ticks_in]. cbv zeta. rewrite Hstep in *.
      match goal with |- context [run D _ ?s] => set (st1 := s) in * end.
      destruct (scanning_message_frame
                  (timeBasedProgress D (t_now t - scanStartTime st))
                  (setProgress (timeBasedProgress D (t_now t - scanStartTime st))
                    (set_consecutiveErrors (consecutiveErrors st + 1)
                      (call ApiGetStatus st))))
        as (F1 & _ & F3 & F4 & F5 & F6 & _).
      fold st1 in F1, F3, F4, F5, F6. simpl in F1, F3, F4, F5, F6.
      destruct (IH st1 ltac:(congruence) Hrest ltac:(rewrite F6; lia))
        as (G1 & G2 & G3 & G4 & G5).
      rewrite G2, G3, G4, G5, F1, F3, F5, F6, Nat2Z.inj_succ.
      repeat split; try assumption; try reflexivity. lia.
Qed.

(** A run with enough failed requests to pass the budget ends completed. *)
Lemma failures_past_budget (D : Z) (evs : list Event) :
  forall st : State,
  pollIntervalRef st = true ->
  failing_run D st evs ->
  6 <= consecutiveErrors st + Z.of_nat (ticks_in evs) ->
  consecutiveErrors st <= 5 ->
  let st' := run D evs st in
  pollIntervalRef st' = false /\ scanning st' = false /\
  progress st' = 100%Q /\ message st' = MsgScanComplete /\
  onComplete_scheduled st' = true.
Proof.
  induction evs as [|ev evs IH]; intros st Hpoll Hall Hpast Hc.
  - simpl in Hpast. lia.
  - destruct Hall as [Hev Hrest]. destruct ev as [now ready found|t].
    + destruct (onFaceResults_frame now ready found st)
        as (F1 & _ & _ & _ & F5 & _).
      cbn [run ticks_in] in *. simpl step in *.
      apply IH; try assumption; congruence.
    + destruct Hev as (Hthrow & Hseen & Hhalf & Hbefore).
      pose proof (face_lost_recent _ _ Hseen) as Hface.
      cbn [ticks_in] in Hpast. rewrite Nat2Z.inj_succ in Hpast.
      cbn [run]. cbv zeta.
      destruct (Z.eq_dec (consecutiveErrors st) 5) as [Hfive|Hless].
      * assert (Hstep : step D (EvTick t) st =
                  finish (set_consecutiveErrors (consecutiveErrors st + 1)
                            (call ApiGetStatus st))).
        { simpl. unfold fire. rewrite Hpoll.
          apply poll_tick_throw_forced; try assumption. lia. }
        rewrite Hstep.
        match goal with |- context [run D _ ?s] =>
          destruct (run_stopped D evs s eq_refl) as (G1 & G2 & G3 & G4 & G5 & _)
        end.
        rewrite G1, G2, G3, G4, G5. repeat split.
      * assert (Hstep : step D (EvTick t) st =
                  scanning_message (timeBasedProgress D (t_now t - scanStartTime st))
                    (setProgress (timeBasedProgress D (t_now t - scanStartTime st))
                      (set_consecutiveErrors (consecutiveErrors st + 1)
                        (call ApiGetStatus st)))).
        { simpl. unfold fire. rewrite Hpoll.
          apply poll_tick_throw_absorbed; try assumption. left. lia. }
        rewrite Hstep in *.
        match goal with |- context [run D _ ?s] => set (st1 := s) in * end.
        destruct (scanning_message_frame
                    (timeBasedProgress D (t_now t - scanStartTime st))
                    (setProgress (timeBasedProgress D (t_now t - scanStartTime st))
                      (set_consecutiveErrors (consecutiveErrors st + 1)
                        (call ApiGetStatus st))))
          as (_ & _ & _ & F4 & _ & F6 & _).
        fold st1 in F4, F6. simpl in F4, F6.
        apply IH; try assumption.
        -- congruence.
        -- rewrite F6. lia.
        -- rewrite F6. lia.
Qed.

(** ** The failure budget of the poll loop *)

(** C1, as stated, fails: after exactly five consecutive failed status
    requests, with time-based progress above 50 on each of them, the
    session is still scanning and still polling; the counter stands at 5,
    and the test is [consecutiveErrors > 5]. *)
Lemma five_failures_keep_polling :
  let st := run 45 (failures 5 30000) started45 in
  failing_run 45 started45 (failures 5 30000) /\
  ticks_in (failures 5 30000) = 5%nat /\
  phase st = Running /\
  pollIntervalRef st = true /\
  onComplete_scheduled st = false /\
  consecutiveErrors st = 5 /\
  ~ (progress st == 100)%Q.
Proof.
  cbv zeta. split.
  - simpl. repeat split; vm_compute; congruence.
  - vm_compute. repeat split; try reflexivity. discriminate.
Qed.

(** C1, amended: in a session whose failure counter is 0, over any run of
    frames and timer periods in which every period has a failed status
    request, time-based progress above 50 and an elapsed time below the
    configured duration, the session is still scanning and polling as long
    as at most five periods have passed, and from the sixth consecutive
    failure on it is completed: progress 100, polling stopped, completion
    signalled. *)
Theorem sixth_failure_forces_complete (D : Z) (st : State) (evs : list Event) :
  pollIntervalRef st = true ->
  consecutiveErrors st = 0 ->
  failing_run D st evs ->
  let st' := run D evs st in
  ((ticks_in evs <= 5)%nat ->
     pollIntervalRef st' = true /\ scanning st' = scanning st /\
     onComplete_scheduled st' = onComplete_scheduled st /\
     error st' = error st /\
     consecutiveErrors st' = Z.of_nat (ticks_in evs)) /\
  ((6 <= ticks_in evs)%nat ->
     pollIntervalRef st' = false /\ scanning st' = false /\
     progress st' = 100%Q /\ message st' = MsgScanComplete /\
     onComplete_scheduled st' = true).
Proof.
  intros Hpoll Hzero Hall. cbv zeta. split; intro Hlen.
  - destruct (failures_within_budget D evs st Hpoll Hall ltac:(lia))
      as (G1 & G2 & G3 & G4 & G5).
    rewrite G5, Hzero. auto.
  - apply failures_past_budget; try assumption; lia.
Qed.

Lemma sixth_failure_forces_complete_witness :
  (let st' := run 45 (failures 5 30000) started45 in
   pollIntervalRef st' = true /\ scanning st' = scanning started45 /\
   onComplete_scheduled st' = onComplete_scheduled started45 /\
   error st' = error started45 /\
   consecutiveErrors st' = 5) /\
  (let st' := run 45 (failures 6 30000) started45 in
   pollIntervalRef st' = false /\ scanning st' = false /\
   progress st' = 100%Q /\ message st' = MsgScanComplete /\
   onComplete_scheduled st' = true).
Proof.
  split.
  - refine (proj1 (sixth_failure_forces_complete 45 started45 (failures 5 30000)
                     _ _ _) _).
    + reflexivity.
    + reflexivity.
    + simpl. repeat split; vm_compute; congruence.
    + simpl. lia.
  - refine (proj2 (sixth_failure_forces_complete 45 started45 (failures 6 30000)
                     _ _ _) _).
    + reflexivity.
    + reflexivity.
    + simpl. repeat split; vm_compute; congruence.
    + simpl. lia.
Defined.

(** ** Completion by elapsed time *)

(** C2, as stated, fails twice over.  In the detector-equipped component a
    period on which the face has been missing for more than 3 s restarts
    the scan before the clock is looked at, also past the configured
    duration; the headless component never looks at the clock, and past
    the duration a status of "running" keeps it running while an error or
    a failed request ends it in Error. *)
Lemma elapsed_duration_without_complete :
  let st := run 45 [EvFrame 42000 true true] started45 in
  let t := tick_at 45400 (Ok (status_body "complete" (Some 100%Q))) in
  (45 * 1000 <= t_now t - scanStartTime st /\
   phase st = Running /\
   phase (poll_tick 45 t st) = Running /\
   progress (poll_tick 45 t st) = 0%Q /\
   onComplete_scheduled (poll_tick 45 t st) = false) /\
  (Headless.phase
     (Headless.poll_tick (tick_at 45500 (Ok (status_body "running" (Some 97%Q))))
        headless_started45) = Running /\
   Headless.phase
     (Headless.poll_tick (tick_at 45500 (Ok (status_body "error" (Some 97%Q))))
        headless_started45) = Error /\
   Headless.phase
     (Headless.poll_tick (tick_at 45500 Throw) headless_started45) = Error).
Proof.
  cbv zeta. split.
  - split; [vm_compute; congruence|]. repeat split.
  - repeat split.
Qed.

(** C2, amended: in the detector-equipped component, on every timer period
    on which the face-lost restart does not fire and the elapsed time has
    reached [scanDuration * 1000], the scan is completed (scanning off,
    progress 100, polling stopped, completion signalled), whatever the
    status request settled to: any status string, or a failure.  A period
    on which the face-lost restart fires restarts instead, whatever the
    elapsed time: scanning, interval and completion signal stay as they
    were and the display goes to 0.  The headless component has no
    elapsed-time rule: a period signals completion there only on a
    "complete" status. *)
Theorem elapsed_duration_completes (D : Z) (t : Tick) (st : State) :
  face_lost (t_now t) st = false ->
  D * 1000 <= t_now t - scanStartTime st ->
  let st' := poll_tick D t st in
  scanning st' = false /\ progress st' = 100%Q /\
  message st' = MsgScanComplete /\ pollIntervalRef st' = false /\
  onComplete_scheduled st' = true /\ error st' = error st /\
  (error st = None -> phase st' = Complete) /\
  (forall st2 : State, face_lost (t_now t) st2 = true ->
     scanning (poll_tick D t st2) = scanning st2 /\
     progress (poll_tick D t st2) = 0%Q /\
     pollIntervalRef (poll_tick D t st2) = pollIntervalRef st2 /\
     onComplete_scheduled (poll_tick D t st2) = onComplete_scheduled st2) /\
  (forall hst : Headless.State,
     Headless.onComplete_scheduled (Headless.poll_tick t hst) = true ->
     Headless.onComplete_scheduled hst = true \/
     exists sd, t_status t = Ok sd /\ status sd = "complete"%string).
Proof.
  intros Hface He.
  destruct (poll_tick_time_limit D t st Hface He) as (H1 & H2 & H3 & H4 & H5 & H6).
  cbv zeta.
  split; [exact H1|]. split; [exact H2|]. split; [exact H3|].
  split; [exact H4|]. split; [exact H5|]. split; [exact H6|].
  split; [|split].
  - intro Hnone. unfold phase. rewrite H6, Hnone, H1, H5. reflexivity.
  - intros st2 Hlost. unfold poll_tick. rewrite Hlost. unfold restart.
    destruct (t_reset t); [destruct (t_start t)|]; repeat split.
  - intros hst. apply headless_tick_completion.
Qed.

Lemma elapsed_duration_completes_witness :
  let st := run 45 [EvFrame 44900 true true] started45 in
  let st' := poll_tick 45 (tick_at 45000 (Ok (status_body "error" (Some 10%Q)))) st in
  scanning st' = false /\ progress st' = 100%Q /\
  message st' = MsgScanComplete /\ pollIntervalRef st' = false /\
  onComplete_scheduled st' = true /\ error st' = error st /\
  (error st = None -> phase st' = Complete).
Proof.
  cbv zeta.
  destruct (elapsed_duration_completes 45
              (tick_at 45000 (Ok (status_body "error" (Some 10%Q))))
              (run 45 [EvFrame 44900 true true] started45))
    as (H1 & H2 & H3 & H4 & H5 & H6 & H7 & _).
  - reflexivity.
  - vm_compute. congruence.
  - split; [exact H1|]. split; [exact H2|]. split; [exact H3|].
    split; [exact H4|]. split; [exact H5|]. split; [exact H6|exact H7].
Defined.

(** ** The face-lost restart *)

(** The restart branch leaves [scanStartTime] as it was. *)
Lemma restart_frame (D : Z) (t : Tick) (st : State) :
  face_lost (t_now t) st = true ->
  let st' := poll_tick D t st in
  scanStartTime st' = scanStartTime st /\ progress st' = 0%Q /\
  message st' = MsgFaceLost /\ scanning st' = scanning st /\
  error st' = error st /\ pollIntervalRef st' = pollIntervalRef st /\
  lastFaceSeenRef st' = t_later t.
Proof.
  intro Hface. unfold poll_tick. rewrite Hface. unfold restart.
  destruct (t_reset t) as [u|]; [destruct (t_start t) as [u'|]|]; repeat split.
Qed.

(** When [api.reset()] throws, the restart branch sends no start request. *)
Lemma restart_reset_failure (D : Z) (t : Tick) (st : State) :
  face_lost (t_now t) st = true ->
  t_reset t = Throw ->
  calls (poll_tick D t st) = calls st ++ [ApiReset].
Proof.
  intros Hface Hreset. unfold poll_tick. rewrite Hface. unfold restart.
  rewrite Hreset. reflexivity.
Qed.

(** C3, the code at the failing input: a 45 s scan started at clock 0, the
    face last seen at 6.9 s, the timer period at 10 s.  The restart branch
    runs: reset and start are sent, the displayed progress drops to 0 and
    the session keeps scanning without error.  But [scanStartTime] is still
    0, so the period at 10.5 s displays 23.3 percent again, the time-based
    progress of the abandoned session, where a refreshed start time would
    give about 1 percent. *)
Theorem face_lost_restart_keeps_start_time :
  let st := run 45 [EvFrame 6900 true true] started45 in
  let t := tick_at 10000 (Ok (status_body "running" (Some 20%Q))) in
  let st1 := step 45 (EvTick t) st in
  let st2 := run 45 [EvFrame 10400 true true;
                     EvTick (tick_at 10500 (Ok (status_body "running" None)))] st1 in
  face_lost (t_now t) st = true /\
  calls st1 = calls st ++ [ApiReset; ApiStartScan "pos" 45] /\
  progress st1 = 0%Q /\ phase st1 = Running /\ pollIntervalRef st1 = true /\
  lastFaceSeenRef st1 = 10050 /\
  scanStartTime st1 = 0 /\
  (progress st2 == timeBasedProgress 45 (10500 - 0))%Q /\
  (23 < progress st2)%Q /\
  (timeBasedProgress 45 (10500 - 10050) == 1)%Q.
Proof.
  cbv zeta. repeat split.
Qed.

(** ** Displayed progress *)

(** The progress shown by a resolved status request that ends the scan
    neither by the clock nor by a "complete" status. *)
Lemma on_status_ok_progress (D e : Z) (sd : StatusData) (st : State) :
  e < D * 1000 ->
  String.eqb (status sd) "complete" = false ->
  progress (on_status_ok D e sd st) =
    Qmax (or_zero (progress_percent sd)) (timeBasedProgress D e).
Proof.
  intros He Hs. unfold on_status_ok. cbv zeta.
  destruct (Z.geb_spec e (D * 1000)); [lia|].
  rewrite Hs.
  destruct (_ && _); unfold scanning_message; simpl;
    destruct (faceDetected_captured st); reflexivity.
Qed.

(** Whatever the status request settles to, the continuation shows at
    least the time-based progress. *)
Lemma on_status_floor (D e : Z) (r : Outcome StatusData) (st : State) :
  (timeBasedProgress D e <= progress (on_status D e r st))%Q.
Proof.
  assert (H100 : (timeBasedProgress D e <= 100)%Q).
  { apply Qle_trans with 99%Q; [apply timeBasedProgress_le_99|discriminate]. }
  destruct r as [sd|]; simpl.
  - unfold on_status_ok. cbv zeta.
    destruct (_ >=? _); [exact H100|].
    destruct (String.eqb _ "complete"); [exact H100|].
    destruct (_ && _); unfold scanning_message; simpl;
      destruct (faceDetected_captured st); simpl; apply Q.le_max_r.
  - unfold on_status_throw. cbv zeta.
    destruct (_ && _); [exact H100|].
    destruct (_ >=? _); [exact H100|].
    unfold scanning_message; simpl.
    destruct (faceDetected_captured st); simpl; apply Qle_refl.
Qed.

(** C4, as stated, fails: within one session and without any restart, a
    status of 80 percent at 5 s followed by a failed request at 5.5 s
    takes the display from 80 down to the time-based 12.2 percent. *)
Lemma displayed_progress_regresses :
  let st1 := run 45 [EvFrame 4900 true true;
                     EvTick (tick_at 5000 (Ok (status_body "running" (Some 80%Q))))]
               started45 in
  let st2 := step 45 (EvTick (tick_at 5500 Throw)) st1 in
  (progress st1 == 80)%Q /\
  (progress st2 == timeBasedProgress 45 5500)%Q /\
  (progress st2 < progress st1)%Q /\
  phase st1 = Running /\ phase st2 = Running /\
  calls st2 = [ApiStartScan "pos" 45; ApiGetStatus; ApiGetStatus] /\
  scanStartTime st2 = scanStartTime started45.
Proof.
  cbv zeta. repeat split.
Qed.

(** C4, amended: in the detector-equipped component, on a timer period
    without restart, a resolved status request that does not end the scan
    displays [max(progress_percent || 0, timeBasedProgress)], a failed one
    that does not end the scan displays [timeBasedProgress], and in every
    case the display is at least the time-based progress, which itself
    never decreases as the clock advances.  In the headless component the
    display after a resolved request is [progress_percent || 0]. *)
Theorem displayed_progress_floor (D : Z) (t : Tick) (st : State) :
  0 < D ->
  face_lost (t_now t) st = false ->
  let e := t_now t - scanStartTime st in
  let st' := poll_tick D t st in
  (forall sd, t_status t = Ok sd -> e < D * 1000 ->
     String.eqb (status sd) "complete" = false ->
     progress st' = Qmax (or_zero (progress_percent sd)) (timeBasedProgress D e)) /\
  (t_status t = Throw -> e < D * 1000 ->
     consecutiveErrors st + 1 <= 5 \/ (timeBasedProgress D e <= 50)%Q ->
     progress st' = timeBasedProgress D e) /\
  (timeBasedProgress D e <= progress st')%Q /\
  (forall e', e <= e' -> (timeBasedProgress D e <= timeBasedProgress D e')%Q) /\
  (forall sd hst, t_status t = Ok sd ->
     Headless.progress (Headless.poll_tick t hst) = or_zero (progress_percent sd)).
Proof.
  intros HD Hface. cbv zeta. repeat split.
  - intros sd Hok He Hs. unfold poll_tick. rewrite Hface, Hok. simpl on_status.
    apply on_status_ok_progress; assumption.
  - intros Hthrow He Hbudget.
    rewrite (poll_tick_throw_absorbed D t st Hthrow Hface Hbudget He).
    unfold scanning_message. simpl. destruct (faceDetected_captured st); reflexivity.
  - unfold poll_tick. rewrite Hface. apply on_status_floor.
  - intros e' Hle. apply timeBasedProgress_monotone; assumption.
  - intros sd hst Hok. unfold Headless.poll_tick. rewrite Hok. cbv zeta.
    destruct (String.eqb _ "complete"); [reflexivity|].
    destruct (String.eqb _ "error"); reflexivity.
Qed.

Lemma displayed_progress_floor_witness :
  let st := run 45 [EvFrame 4900 true true] started45 in
  let t := tick_at 5000 (Ok (status_body "running" (Some 80%Q))) in
  progress (poll_tick 45 t st) =
    Qmax (or_zero (Some 80%Q)) (timeBasedProgress 45 (5000 - scanStartTime st)).
Proof.
  cbv zeta.
  refine (proj1 (displayed_progress_floor 45
                   (tick_at 5000 (Ok (status_body "running" (Some 80%Q))))
                   (run 45 [EvFrame 4900 true true] started45) _ _)
            (status_body "running" (Some 80%Q)) _ _ _).
  - reflexivity.
  - reflexivity.
  - reflexivity.
  - reflexivity.
  - reflexivity.
Defined.

(** ** Server-reported errors *)

(** An "error" status before 80 percent of the duration stops the scan. *)
Lemma on_status_ok_early_error (D e : Z) (sd : StatusData) (st : State) :
  0 < D ->
  status sd = "error"%string ->
  (inject_Z e < inject_Z (D * 1000) * (8 # 10))%Q ->
  exists st0,
    on_status_ok D e sd st =
      set_scanStartedRef false
        (setError (Some ErrScanIssue) (setScanning false (clearInterval st0))) /\
    onComplete_scheduled st0 = onComplete_scheduled st.
Proof.
  intros HD Hs He. unfold on_status_ok. cbv zeta.
  assert (Hlt : e < D * 1000).
  { apply Z.lt_nge. intro Hge. rewrite Zle_Qle in Hge.
    pose proof (inject_Z_pos (D * 1000) ltac:(lia)) as Hpos.
    assert ((inject_Z (D * 1000) * (8 # 10) < inject_Z (D * 1000))%Q) as Hsm.
    { rewrite <- (Qmult_1_r (inject_Z (D * 1000))) at 2.
      apply Qmult_lt_l; [exact Hpos|reflexivity]. }
    apply (Qlt_irrefl (inject_Z e)).
    eapply Qlt_le_trans; [exact He|].
    eapply Qle_trans; [apply Qlt_le_weak; exact Hsm|exact Hge]. }
  destruct (Z.geb_spec e (D * 1000)); [lia|].
  rewrite Hs. simpl String.eqb.
  apply Qlt_bool_true in He. rewrite He. simpl andb.
  eexists; split; [reflexivity|].
  unfold scanning_message; destruct (faceDetected_captured _); reflexivity.
Qed.

(** An "error" status from 80 percent of the duration on, and before the
    duration, only updates the display. *)
Lemma on_status_ok_late_error (D e : Z) (sd : StatusData) (st : State) :
  status sd = "error"%string ->
  (inject_Z (D * 1000) * (8 # 10) <= inject_Z e)%Q ->
  e < D * 1000 ->
  on_status_ok D e sd st =
    scanning_message (Qmax (or_zero (progress_percent sd)) (timeBasedProgress D e))
      (setProgress (Qmax (or_zero (progress_percent sd)) (timeBasedProgress D e))
        (set_consecutiveErrors 0 st)).
Proof.
  intros Hs He Hlt. unfold on_status_ok. cbv zeta.
  destruct (Z.geb_spec e (D * 1000)); [lia|].
  rewrite Hs. simpl String.eqb.
  apply Qlt_bool_false in He. rewrite He. reflexivity.
Qed.

(** C5, as stated, fails in the headless component, which has no late-error
    rule: an "error" status 40 s into a 45 s scan ends the session in
    Error and stops polling. *)
Lemma headless_late_error_is_fatal :
  let st' := Headless.poll_tick
               (tick_at 40000 (Ok (status_body "error" (Some 88%Q))))
               headless_started45 in
  (inject_Z (45 * 1000) * (8 # 10) <= inject_Z 40000)%Q /\
  Headless.phase headless_started45 = Running /\
  Headless.phase st' = Error /\
  Headless.error st' = Some ErrScanFailed /\
  Headless.scanning st' = false /\
  Headless.pollIntervalRef st' = false.
Proof.
  cbv zeta. repeat split. discriminate.
Qed.

(** C5, amended: in the detector-equipped component, on a timer period
    without restart whose status request reports "error": before 80
    percent of the duration the session ends in Error (scanning off,
    error set, polling stopped); from 80 percent on and before the
    duration the report is ignored, the session keeps scanning and
    polling, and every later period without restart at or past the
    duration completes it; at or past the duration the same period
    completes it.  In the headless component a period whose status
    request reports "error" ends the session in Error, whatever its state
    and whatever the clock. *)
Theorem reported_error_verdict (D : Z) (t : Tick) (sd : StatusData) (st : State) :
  0 < D ->
  t_status t = Ok sd ->
  status sd = "error"%string ->
  face_lost (t_now t) st = false ->
  let e := t_now t - scanStartTime st in
  let st' := poll_tick D t st in
  ((inject_Z e < inject_Z (D * 1000) * (8 # 10))%Q ->
     scanning st' = false /\ error st' = Some ErrScanIssue /\
     pollIntervalRef st' = false /\
     onComplete_scheduled st' = onComplete_scheduled st /\
     phase st' = Error) /\
  ((inject_Z (D * 1000) * (8 # 10) <= inject_Z e)%Q -> e < D * 1000 ->
     scanning st' = scanning st /\ error st' = error st /\
     pollIntervalRef st' = pollIntervalRef st /\
     onComplete_scheduled st' = onComplete_scheduled st /\
     forall t2, face_lost (t_now t2) st' = false ->
       D * 1000 <= t_now t2 - scanStartTime st ->
       scanning (poll_tick D t2 st') = false /\
       progress (poll_tick D t2 st') = 100%Q /\
       onComplete_scheduled (poll_tick D t2 st') = true /\
       error (poll_tick D t2 st') = error st) /\
  (D * 1000 <= e ->
     scanning st' = false /\ progress st' = 100%Q /\
     onComplete_scheduled st' = true /\ error st' = error st) /\
  (forall hst : Headless.State,
     Headless.error (Headless.poll_tick t hst) = Some ErrScanFailed /\
     Headless.scanning (Headless.poll_tick t hst) = false /\
     Headless.pollIntervalRef (Headless.poll_tick t hst) = false /\
     Headless.message (Headless.poll_tick t hst) = MsgScanFailed /\
     Headless.phase (Headless.poll_tick t hst) = Error /\
     Headless.onComplete_scheduled (Headless.poll_tick t hst)
       = Headless.onComplete_scheduled hst).
Proof.
  intros HD Hok Hs Hface. cbv zeta.
  split; [|split; [|split]].
  - intro He. unfold poll_tick. rewrite Hface, Hok. simpl on_status.
    destruct (on_status_ok_early_error D _ sd (call ApiGetStatus st) HD Hs He)
      as [st0 [Heq Hsch]].
    simpl scanStartTime in Heq. rewrite Heq. repeat split. exact Hsch.
  - intros He Hlt.
    pose proof (on_status_ok_late_error D _ sd (call ApiGetStatus st) Hs He Hlt) as Heq.
    assert (Htick : poll_tick D t st =
              on_status_ok D (t_now t - scanStartTime st) sd (call ApiGetStatus st)).
    { unfold poll_tick. rewrite Hface, Hok. reflexivity. }
    rewrite Htick, Heq.
    match goal with |- context [scanning_message ?p ?s] =>
      destruct (scanning_message_frame p s)
        as (F1 & _ & F3 & F4 & F5 & _ & _ & F8 & _);
      set (st1 := scanning_message p s) in * end.
    simpl in F1, F3, F4, F5, F8.
    split; [exact F1|]. split; [exact F3|]. split; [exact F4|].
    split; [exact F5|].
    intros t2 Hface2 He2. rewrite <- F8 in He2.
    destruct (poll_tick_time_limit D t2 st1 Hface2 He2)
      as (H1 & H2 & H3 & H4 & H5 & H6).
    rewrite H6. auto.
  - intro He.
    destruct (poll_tick_time_limit D t st Hface He) as (H1 & H2 & H3 & H4 & H5 & H6).
    auto.
  - intro hst. unfold Headless.poll_tick. rewrite Hok. cbv zeta.
    rewrite Hs. repeat split.
Qed.

Lemma reported_error_verdict_witness :
  (let st := run 45 [EvFrame 9900 true true] started45 in
   let st' := poll_tick 45 (tick_at 10000 (Ok (status_body "error" (Some 20%Q)))) st in
   scanning st' = false /\ error st' = Some ErrScanIssue /\
   pollIntervalRef st' = false /\
   onComplete_scheduled st' = onComplete_scheduled st /\
   phase st' = Error) /\
  (let st := run 45 [EvFrame 39900 true true] started45 in
   let st' := poll_tick 45 (tick_at 40000 (Ok (status_body "error" (Some 20%Q)))) st in
   scanning st' = true /\ error st' = None /\ pollIntervalRef st' = true).
Proof.
  split.
  - cbv zeta.
    refine (proj1 (reported_error_verdict 45
                     (tick_at 10000 (Ok (status_body "error" (Some 20%Q))))
                     (status_body "error" (Some 20%Q))
                     (run 45 [EvFrame 9900 true true] started45) _ _ _ _) _).
    + reflexivity.
    + reflexivity.
    + reflexivity.
    + reflexivity.
    + reflexivity.
  - cbv zeta.
    destruct (proj1 (proj2 (reported_error_verdict 45
                     (tick_at 40000 (Ok (status_body "error" (Some 20%Q))))
                     (status_body "error" (Some 20%Q))
                     (run 45 [EvFrame 39900 true true] started45)
                     eq_refl eq_refl eq_refl eq_refl)))
      as (H1 & H2 & H3 & _).
    + vm_compute. discriminate.
    + reflexivity.
    + rewrite H1, H2, H3. repeat split.
Defined.

(** ** Failed status requests *)

(** C6, as stated, fails in the headless component: the first failed
    status request, 2 s into the scan, ends the session in Error and
    stops polling. *)
Lemma headless_poll_failure_is_fatal :
  let st' := Headless.poll_tick (tick_at 2000 Throw) headless_started45 in
  Headless.phase headless_started45 = Running /\
  Headless.phase st' = Error /\
  Headless.error st' = Some ErrLostConnection /\
  Headless.scanning st' = false /\
  Headless.pollIntervalRef st' = false.
Proof.
  cbv zeta. repeat split.
Qed.

(** C6, amended: in the detector-equipped component, on a timer period
    without restart whose status request fails before the configured
    duration, with at most five consecutive failures so far including this
    one or time-based progress at most 50, the session keeps scanning with
    its error field untouched, displays the time-based progress, counts the
    failure and leaves the interval registered.  In the headless component
    a period whose status request fails ends the session in Error,
    whatever its state: the first failed poll is fatal. *)
Theorem poll_failure_absorbed (D : Z) (t : Tick) (st : State) :
  t_status t = Throw ->
  face_lost (t_now t) st = false ->
  consecutiveErrors st + 1 <= 5 \/
    (timeBasedProgress D (t_now t - scanStartTime st) <= 50)%Q ->
  t_now t - scanStartTime st < D * 1000 ->
  let st' := poll_tick D t st in
  scanning st' = scanning st /\ error st' = error st /\
  phase st' = phase st /\
  pollIntervalRef st' = pollIntervalRef st /\
  progress st' = timeBasedProgress D (t_now t - scanStartTime st) /\
  consecutiveErrors st' = consecutiveErrors st + 1 /\
  onComplete_scheduled st' = onComplete_scheduled st /\
  calls st' = calls st ++ [ApiGetStatus] /\
  (forall hst : Headless.State,
     Headless.error (Headless.poll_tick t hst) = Some ErrLostConnection /\
     Headless.scanning (Headless.poll_tick t hst) = false /\
     Headless.pollIntervalRef (Headless.poll_tick t hst) = false /\
     Headless.phase (Headless.poll_tick t hst) = Error /\
     Headless.progress (Headless.poll_tick t hst) = Headless.progress hst /\
     Headless.onComplete_scheduled (Headless.poll_tick t hst)
       = Headless.onComplete_scheduled hst).
Proof.
  intros Hthrow Hface Hbudget He. cbv zeta.
  assert (Hheadless : forall hst : Headless.State,
     Headless.error (Headless.poll_tick t hst) = Some ErrLostConnection /\
     Headless.scanning (Headless.poll_tick t hst) = false /\
     Headless.pollIntervalRef (Headless.poll_tick t hst) = false /\
     Headless.phase (Headless.poll_tick t hst) = Error /\
     Headless.progress (Headless.poll_tick t hst) = Headless.progress hst /\
     Headless.onComplete_scheduled (Headless.poll_tick t hst)
       = Headless.onComplete_scheduled hst).
  { intro hst. unfold Headless.poll_tick. rewrite Hthrow. repeat split. }
  rewrite (poll_tick_throw_absorbed D t st Hthrow Hface Hbudget He).
  unfold scanning_message, phase. simpl.
  destruct (faceDetected_captured st); simpl; repeat split;
    apply Hheadless.
Qed.

Lemma poll_failure_absorbed_witness :
  let st := run 45 [EvFrame 29900 true true] started45 in
  let st' := poll_tick 45 (tick_at 30000 Throw) st in
  scanning st' = scanning st /\ error st' = error st /\
  phase st' = phase st /\
  pollIntervalRef st' = pollIntervalRef st /\
  progress st' = timeBasedProgress 45 (30000 - scanStartTime st) /\
  consecutiveErrors st' = consecutiveErrors st + 1 /\
  onComplete_scheduled st' = onComplete_scheduled st /\
  calls st' = calls st ++ [ApiGetStatus].
Proof.
  cbv zeta.
  destruct (poll_failure_absorbed 45 (tick_at 30000 Throw)
              (run 45 [EvFrame 29900 true true] started45))
    as (H1 & H2 & H3 & H4 & H5 & H6 & H7 & H8 & _).
  - reflexivity.
  - reflexivity.
  - left. vm_compute. congruence.
  - reflexivity.
  - split; [exact H1|]. split; [exact H2|]. split; [exact H3|].
    split; [exact H4|]. split; [exact H5|]. split; [exact H6|].
    split; [exact H7|exact H8].
Defined.

(** ** Presence that was never observed *)

(** Frames without a face leave the last-seen reading alone. *)
Lemma faceless_frames_frame (D : Z) (fs : list (Z * bool)) :
  forall st : State,
  let st' := run D (map (fun f => EvFrame (fst f) (snd f) false) fs) st in
  lastFaceSeenRef st' = lastFaceSeenRef st /\
  (faceDetected st = false -> faceDetected st' = false) /\
  scanStartedRef st' = scanStartedRef st /\ calls st' = calls st.
Proof.
  induction fs as [|[now ready] fs IH]; intro st; cbv zeta.
  - simpl. auto.
  - cbn [map run fst snd].
    destruct (IH (step D (EvFrame now ready false) st)) as (G1 & G2 & G3 & G4).
    rewrite G1, G3, G4. simpl. unfold onFaceResults.
    destruct ready; simpl; repeat split; intros; apply G2;
      simpl; unfold onFaceResults; simpl; auto.
Qed.

(** C7, as stated, fails: with the camera ready and two frames processed,
    neither showing a face, the time since the face was last seen reads
    1000 ms at clock 1000 (counted from the mount at clock 0), so the
    face-lost test is false and a timer period at that moment asks for the
    status instead of restarting. *)
Lemma never_seen_is_not_infinite :
  let st := run 45 [EvFrame 200 true false; EvFrame 400 true false]
              (initCamera (Ok tt) (mount 0)) in
  let scanning_st := set_pollIntervalRef true
                       (set_scanStartedRef true (setScanning true st)) in
  faceDetected st = false /\
  timeSinceFace 1000 st = 1000 /\
  face_lost 1000 scanning_st = false /\
  calls (fire 45 (tick_at 1000 (Ok (status_body "running" None))) scanning_st)
    = [ApiGetStatus].
Proof.
  cbv zeta. repeat split.
Qed.

(** C7, amended: while no processed frame has shown a face, the last-seen
    reading is the clock at mount, so the time since the face was last
    seen is [now] minus the mount time; the face-lost test of a started
    scan is true exactly when that exceeds 3000 ms; and pressing Start in
    that situation only sets the advisory message. *)
Theorem never_seen_counts_from_mount
    (D m now : Z) (cam r : Outcome unit) (fs : list (Z * bool)) :
  let st := run D (map (fun f => EvFrame (fst f) (snd f) false) fs)
              (initCamera cam (mount m)) in
  timeSinceFace now st = now - m /\
  (face_lost now (set_scanStartedRef true st) = true <-> 3000 < now - m) /\
  startScan D now r st = setMessage MsgPositionFaceFirst st.
Proof.
  cbv zeta.
  destruct (faceless_frames_frame D fs (initCamera cam (mount m)))
    as (G1 & G2 & _ & _).
  assert (Hm : lastFaceSeenRef (initCamera cam (mount m)) = m)
    by (destruct cam; reflexivity).
  assert (Hf : faceDetected (initCamera cam (mount m)) = false)
    by (destruct cam; reflexivity).
  split; [|split].
  - unfold timeSinceFace. rewrite G1, Hm. reflexivity.
  - rewrite face_lost_true. simpl. rewrite G1, Hm. tauto.
  - unfold startScan. rewrite (G2 Hf). reflexivity.
Qed.

(** ** Time-based progress *)

(** C8: for a positive duration and every elapsed time, the time-based
    progress computed by the callback is the specification's
    [min(elapsed / (durationSeconds * 1000) * 100, 99)]; it stays below
    100, and from the full duration on it is exactly 99. *)
Theorem timeBasedProgress_capped (D e : Z) :
  0 < D ->
  (timeBasedProgress D e == spec_timeBasedProgress D e)%Q /\
  (timeBasedProgress D e < 100)%Q /\
  (D * 1000 <= e -> (timeBasedProgress D e == 99)%Q).
Proof.
  intro HD. repeat apply conj.
  - unfold timeBasedProgress, spec_timeBasedProgress.
    rewrite inject_Z_mult. reflexivity.
  - apply Qle_lt_trans with 99%Q; [apply timeBasedProgress_le_99|reflexivity].
  - intro He. apply timeBasedProgress_saturated; assumption.
Qed.

Lemma timeBasedProgress_capped_witness :
  (timeBasedProgress 45 44999 == spec_timeBasedProgress 45 44999)%Q /\
  (timeBasedProgress 45 44999 < 100)%Q /\
  (45 * 1000 <= 44999 -> (timeBasedProgress 45 44999 == 99)%Q).
Proof.
  apply (timeBasedProgress_capped 45 44999). reflexivity.
Defined.

(** ** Teardown *)






(** ** Starting without a face *)

(** C10: in the detector-equipped component, [startScan] with no face
    currently detected only sets the advisory message: no request is sent,
    scanning, progress, error, the started flag and the interval are as
    before. *)
Theorem startScan_without_face (D now : Z) (r : Outcome unit) (st : State) :
  faceDetected st = false ->
  let st' := startScan D now r st in
  st' = setMessage MsgPositionFaceFirst st /\
  calls st' = calls st /\
  scanning st' = scanning st /\
  progress st' = progress st /\
  error st' = error st /\
  scanStartedRef st' = scanStartedRef st /\
  pollIntervalRef st' = pollIntervalRef st /\
  phase st' = phase st.
Proof.
  intro Hface. cbv zeta. unfold startScan. rewrite Hface. repeat split.
Qed.

Lemma startScan_without_face_witness :
  let st := initCamera (Ok tt) (mount 0) in
  let st' := startScan 45 100 (Ok tt) st in
  st' = setMessage MsgPositionFaceFirst st /\
  calls st' = [] /\
  scanning st' = false /\
  pollIntervalRef st' = false /\
  phase st' = Idle.
Proof.
  cbv zeta.
  destruct (startScan_without_face 45 100 (Ok tt) (initCamera (Ok tt) (mount 0))
              eq_refl) as (H1 & H2 & H3 & _ & _ & _ & H7 & H8).
  repeat split; assumption.
Defined.

(** ** Further properties of the detector-equipped poll loop *)

(** X1.  A "complete" status before the configured duration ends the scan the
    same way the clock does: scanning off, progress 100, polling stopped,
    completion signalled, the error field untouched. *)
Theorem server_complete_completes (D : Z) (t : Tick) (sd : StatusData) (st : State) :
  face_lost (t_now t) st = false ->
  t_status t = Ok sd ->
  status sd = "complete"%string ->
  let st' := poll_tick D t st in
  scanning st' = false /\ progress st' = 100%Q /\
  message st' = MsgScanComplete /\ pollIntervalRef st' = false /\
  onComplete_scheduled st' = true /\ error st' = error st /\
  consecutiveErrors st' = 0.
Proof.
  intros Hface Hok Hs. cbv zeta.
  unfold poll_tick. rewrite Hface, Hok. simpl on_status.
  unfold on_status_ok. cbv zeta. rewrite Hs. simpl String.eqb.
  unfold scanning_message.
  destruct (_ >=? _); destruct (faceDetected_captured _); repeat split.
Qed.

Lemma server_complete_completes_witness :
  let st := run 45 [EvFrame 19900 true true] started45 in
  let st' := poll_tick 45 (tick_at 20000 (Ok (status_body "complete" (Some 100%Q)))) st in
  scanning st' = false /\ progress st' = 100%Q /\
  message st' = MsgScanComplete /\ pollIntervalRef st' = false /\
  onComplete_scheduled st' = true /\ error st' = error st /\
  consecutiveErrors st' = 0.
Proof.
  cbv zeta.
  apply (server_complete_completes 45
           (tick_at 20000 (Ok (status_body "complete" (Some 100%Q))))
           (status_body "complete" (Some 100%Q))
           (run 45 [EvFrame 19900 true true] started45)).
  - reflexivity.
  - reflexivity.
  - reflexivity.
Defined.

(** X2.  A timer period changes the error field in one case only: the status
    request resolved with "error" before 80 percent of a duration that has
    not yet elapsed.  A failed request, a restart, or a completion never
    sets or clears it. *)
Theorem tick_error_only_from_early_report (D : Z) (t : Tick) (st : State) :
  let e := t_now t - scanStartTime st in
  let st' := poll_tick D t st in
  error st' = error st \/
  (error st' = Some ErrScanIssue /\
   face_lost (t_now t) st = false /\
   e < D * 1000 /\
   (inject_Z e < inject_Z (D * 1000) * (8 # 10))%Q /\
   exists sd, t_status t = Ok sd /\ status sd = "error"%string).
Proof.
  cbv zeta. unfold poll_tick.
  destruct (face_lost (t_now t) st) eqn:Hface.
  - left. unfold restart.
    destruct (t_reset t); [destruct (t_start t)|]; reflexivity.
  - destruct (t_status t) as [sd|] eqn:Hst; simpl on_status.
    + unfold on_status_ok. cbv zeta. simpl scanStartTime.
      destruct (Z.geb_spec (t_now t - scanStartTime st) (D * 1000)) as [Hge|Hlt].
      { left. unfold scanning_message. destruct (faceDetected_captured _); reflexivity. }
      destruct (String.eqb (status sd) "complete").
      { left. unfold scanning_message. destruct (faceDetected_captured _); reflexivity. }
      destruct (String.eqb_spec (status sd) "error") as [Herr|Hne]; simpl andb.
      * destruct (Qlt_bool _ _) eqn:Hq.
        -- right. apply Qlt_bool_true in Hq.
           repeat split; try assumption. exists sd. auto.
        -- left. unfold scanning_message.
           destruct (faceDetected_captured _); reflexivity.
      * left. unfold scanning_message.
        destruct (faceDetected_captured _); reflexivity.
    + left. unfold on_status_throw. cbv zeta.
      destruct (_ && _); [reflexivity|].
      unfold scanning_message.
      destruct (_ >=? _); destruct (faceDetected_captured _); reflexivity.
Qed.

(** X3.  What one timer period sends: a single status request when the face was
    seen recently; otherwise a reset, followed by a start with the same
    algorithm and duration only if the reset went through.  Never both a
    status request and a reset. *)
Theorem tick_requests (D : Z) (t : Tick) (st : State) :
  calls (poll_tick D t st) =
    calls st ++
      (if face_lost (t_now t) st
       then match t_reset t with
            | Ok _ => [ApiReset; ApiStartScan "pos" D]
            | Throw => [ApiReset]
            end
       else [ApiGetStatus]).
Proof.
  unfold poll_tick. destruct (face_lost (t_now t) st).
  - unfold restart.
    destruct (t_reset t); [destruct (t_start t)|]; simpl;
      rewrite <- ?app_assoc; reflexivity.
  - destruct (t_status t) as [sd|]; simpl on_status.
    + unfold on_status_ok, scanning_message. cbv zeta.
      destruct (_ >=? _);
        [|destruct (String.eqb _ "complete"); [|destruct (_ && _)]];
        destruct (faceDetected_captured _); reflexivity.
    + unfold on_status_throw, scanning_message. cbv zeta.
      destruct (_ && _); [reflexivity|].
      destruct (_ >=? _); destruct (faceDetected_captured _); reflexivity.
Qed.

(** A timer period that turns scanning off clears the interval. *)
Lemma tick_end_clears_interval (D : Z) (t : Tick) (st : State) :
  scanning st = true ->
  scanning (poll_tick D t st) = false ->
  pollIntervalRef (poll_tick D t st) = false.
Proof.
  intros Hrun. unfold poll_tick. destruct (face_lost (t_now t) st).
  - unfold restart.
    destruct (t_reset t); [destruct (t_start t)|]; simpl; congruence.
  - destruct (t_status t) as [sd|]; simpl on_status.
    + unfold on_status_ok, scanning_message. cbv zeta.
      destruct (_ >=? _);
        [|destruct (String.eqb _ "complete"); [|destruct (_ && _)]];
        destruct (faceDetected_captured _); simpl; congruence.
    + unfold on_status_throw, scanning_message. cbv zeta.
      destruct (_ && _); [reflexivity|].
      destruct (_ >=? _); destruct (faceDetected_captured _); simpl; congruence.
Qed.

(** With the interval cleared, frames and timer periods send nothing. *)
Lemma run_stopped_calls (D : Z) (evs : list Event) :
  forall st : State,
  pollIntervalRef st = false -> calls (run D evs st) = calls st.
Proof.
  induction evs as [|ev evs IH]; intros st Hstop; [reflexivity|].
  cbn [run]. destruct ev as [now ready found|t]; simpl step.
  - rewrite IH.
    + unfold onFaceResults. destruct ready, found; reflexivity.
    + destruct (onFaceResults_frame now ready found st) as (F1 & _). congruence.
  - unfold fire. rewrite Hstop. apply IH. exact Hstop.
Qed.

(** X4.  Once a timer period has ended a scan, by completion or by a reported
    error, the interval is cleared and whatever follows, frames or further
    timer periods, sends no request and leaves scanning, progress, message,
    error and the completion signal as that period left them. *)
Theorem ended_scan_stays_ended (D : Z) (t : Tick) (st : State) (evs : list Event) :
  scanning st = true ->
  scanning (poll_tick D t st) = false ->
  let st1 := poll_tick D t st in
  let st2 := run D evs st1 in
  pollIntervalRef st2 = false /\ scanning st2 = false /\
  progress st2 = progress st1 /\ message st2 = message st1 /\
  error st2 = error st1 /\
  onComplete_scheduled st2 = onComplete_scheduled st1 /\
  calls st2 = calls st1.
Proof.
  intros Hrun Hend. cbv zeta.
  pose proof (tick_end_clears_interval D t st Hrun Hend) as Hstop.
  destruct (run_stopped D evs _ Hstop) as (G1 & G2 & G3 & G4 & G5 & G6).
  rewrite (run_stopped_calls D evs _ Hstop), G2, Hend. auto 10.
Qed.

Lemma ended_scan_stays_ended_witness :
  let st := run 45 [EvFrame 44900 true true] started45 in
  let st1 := poll_tick 45 (tick_at 45000 Throw) st in
  let st2 := run 45 [EvFrame 45100 true false; EvTick (tick_at 45500 Throw);
                     EvTick (tick_at 49000 (Ok (status_body "error" None)))] st1 in
  pollIntervalRef st2 = false /\ scanning st2 = false /\
  progress st2 = progress st1 /\ message st2 = message st1 /\
  error st2 = error st1 /\
  onComplete_scheduled st2 = onComplete_scheduled st1 /\
  calls st2 = calls st1.
Proof.
  cbv zeta.
  apply (ended_scan_stays_ended 45 (tick_at 45000 Throw)
           (run 45 [EvFrame 44900 true true] started45)).
  - reflexivity.
  - reflexivity.
Defined.

Lemma timeBasedProgress_nonneg (D e : Z) :
  0 < D -> 0 <= e -> (0 <= timeBasedProgress D e)%Q.
Proof.
  intros HD He. unfold timeBasedProgress.
  apply Q.min_glb; [|discriminate].
  apply Qmult_le_0_compat; [|discriminate].
  unfold Qdiv. apply Qmult_le_0_compat.
  - rewrite (Zle_Qle 0 e) in He. exact He.
  - apply Qlt_le_weak, Qinv_lt_0_compat, inject_Z_pos. lia.
Qed.

(** X5.  With a positive duration, a clock that has not gone back behind the
    start of the scan and a server percentage (when there is one) between 0
    and 100, the progress displayed after a timer period lies between 0 and
    100, whichever branch the callback took. *)
Theorem displayed_progress_in_range (D : Z) (t : Tick) (st : State) :
  0 < D ->
  scanStartTime st <= t_now t ->
  (forall sd, t_status t = Ok sd ->
     (0 <= or_zero (progress_percent sd) <= 100)%Q) ->
  (0 <= progress (poll_tick D t st) <= 100)%Q.
Proof.
  intros HD Hclock Hserver.
  assert (Hlo : (0 <= timeBasedProgress D (t_now t - scanStartTime st))%Q)
    by (apply timeBasedProgress_nonneg; lia).
  assert (Hhi : (timeBasedProgress D (t_now t - scanStartTime st) <= 100)%Q).
  { apply Qle_trans with 99%Q; [apply timeBasedProgress_le_99|discriminate]. }
  assert (H0 : (0 <= 0 <= 100)%Q) by (split; discriminate).
  assert (H100 : (0 <= 100 <= 100)%Q) by (split; discriminate).
  unfold poll_tick. destruct (face_lost (t_now t) st).
  - unfold restart.
    destruct (t_reset t); [destruct (t_start t)|]; exact H0.
  - destruct (t_status t) as [sd|] eqn:Hst; simpl on_status.
    + destruct (Hserver sd eq_refl) as [Hs0 Hs1].
      assert (Hmax : (0 <= Qmax (or_zero (progress_percent sd))
                                (timeBasedProgress D (t_now t - scanStartTime st))
                      <= 100)%Q).
      { split.
        - apply Qle_trans with (or_zero (progress_percent sd));
            [exact Hs0|apply Q.le_max_l].
        - apply Q.max_lub; assumption. }
      unfold on_status_ok, scanning_message. cbv zeta. simpl scanStartTime.
      destruct (_ >=? _);
        [|destruct (String.eqb _ "complete"); [|destruct (_ && _)]];
        destruct (faceDetected_captured _); simpl; assumption.
    + unfold on_status_throw, scanning_message. cbv zeta. simpl scanStartTime.
      destruct (_ && _); [exact H100|].
      destruct (_ >=? _); destruct (faceDetected_captured _); simpl;
        first [exact H100 | split; assumption].
Qed.

Lemma displayed_progress_in_range_witness :
  let st := run 45 [EvFrame 4900 true true] started45 in
  let t := tick_at 5000 (Ok (status_body "running" (Some 80%Q))) in
  (0 <= progress (poll_tick 45 t st) <= 100)%Q.
Proof.
  cbv zeta.
  apply (displayed_progress_in_range 45
           (tick_at 5000 (Ok (status_body "running" (Some 80%Q))))
           (run 45 [EvFrame 4900 true true] started45)).
  - reflexivity.
  - vm_compute. congruence.
  - intros sd Hsd. injection Hsd as <-. simpl. split; discriminate.
Defined.

(** The server percentage is not clamped: a report above 100 is displayed
    as it is. *)
Lemma displayed_progress_unclamped :
  let st := run 45 [EvFrame 4900 true true] started45 in
  let t := tick_at 5000 (Ok (status_body "running" (Some 250%Q))) in
  (progress (poll_tick 45 t st) == 250)%Q.
Proof. reflexivity. Qed.

(** X6.  A resolved status request that leaves the interval registered puts the
    failure counter back to 0, so the budget of five failed requests starts
    afresh: whatever happened before, up to five failures after it leave
    the scan polling and not completed. *)
Theorem resolved_request_renews_budget
    (D : Z) (t : Tick) (sd : StatusData) (st : State) (evs : list Event) :
  face_lost (t_now t) st = false ->
  t_status t = Ok sd ->
  pollIntervalRef (poll_tick D t st) = true ->
  failing_run D (poll_tick D t st) evs ->
  (ticks_in evs <= 5)%nat ->
  let st1 := poll_tick D t st in
  let st2 := run D evs st1 in
  consecutiveErrors st1 = 0 /\
  pollIntervalRef st2 = true /\ scanning st2 = scanning st1 /\
  onComplete_scheduled st2 = onComplete_scheduled st1 /\
  consecutiveErrors st2 = Z.of_nat (ticks_in evs).
Proof.
  intros Hface Hok Hpoll Hrun Hlen. cbv zeta.
  assert (Hzero : consecutiveErrors (poll_tick D t st) = 0).
  { unfold poll_tick. rewrite Hface, Hok. simpl on_status.
    unfold on_status_ok, scanning_message. cbv zeta.
    destruct (_ >=? _);
      [|destruct (String.eqb _ "complete"); [|destruct (_ && _)]];
      destruct (faceDetected_captured _); reflexivity. }
  destruct (failures_within_budget D evs _ Hpoll Hrun ltac:(lia))
    as (G1 & G2 & G3 & _ & G5).
  rewrite G5, Hzero. auto.
Qed.

Lemma resolved_request_renews_budget_witness :
  let st := run 45 (failures 5 30000) started45 in
  let t := tick_at 32500 (Ok (status_body "running" None)) in
  let st1 := poll_tick 45 t st in
  let st2 := run 45 (failures 5 33000) st1 in
  consecutiveErrors st = 5 /\
  consecutiveErrors st1 = 0 /\
  pollIntervalRef st2 = true /\ scanning st2 = scanning st1 /\
  onComplete_scheduled st2 = onComplete_scheduled st1 /\
  consecutiveErrors st2 = 5.
Proof.
  cbv zeta. split; [reflexivity|].
  apply (resolved_request_renews_budget 45
           (tick_at 32500 (Ok (status_body "running" None)))
           (status_body "running" None)
           (run 45 (failures 5 30000) started45)
           (failures 5 33000)).
  - reflexivity.
  - reflexivity.
  - reflexivity.
  - simpl. repeat split; vm_compute; congruence.
  - simpl. lia.
Defined.

(** The callback closed over the [faceDetected] of the render in which
    Start was pressed; nothing that happens afterwards changes it. *)
Lemma step_keeps_captured (D : Z) (ev : Event) (st : State) :
  faceDetected_captured (step D ev st) = faceDetected_captured st.
Proof.
  destruct ev as [now ready found|t]; simpl.
  - unfold onFaceResults. destruct ready, found; reflexivity.
  - unfold fire. destruct (pollIntervalRef st); [|reflexivity].
    unfold poll_tick. destruct (face_lost (t_now t) st).
    + unfold restart.
      destruct (t_reset t); [destruct (t_start t)|]; reflexivity.
    + assert (Hmsg : forall p s, faceDetected_captured (scanning_message p s)
                                 = faceDetected_captured s).
      { intros p s. unfold scanning_message.
        destruct (faceDetected_captured s) eqn:E; simpl; exact E. }
      destruct (t_status t) as [sd|]; simpl on_status.
      * unfold on_status_ok. cbv zeta.
        destruct (_ >=? _);
          [|destruct (String.eqb _ "complete"); [|destruct (_ && _)]];
          simpl; rewrite Hmsg; reflexivity.
      * unfold on_status_throw. cbv zeta.
        destruct (_ && _); [reflexivity|].
        destruct (_ >=? _); simpl; rewrite Hmsg; reflexivity.
Qed.

Lemma run_keeps_captured (D : Z) (evs : list Event) :
  forall st : State,
  faceDetected_captured (run D evs st) = faceDetected_captured st.
Proof.
  induction evs as [|ev evs IH]; intro st; [reflexivity|].
  cbn [run]. rewrite IH. apply step_keeps_captured.
Qed.

(** X7.  In a scan started through [startScan], however many frames and timer
    periods have passed and whether or not a face is in the frame now, a
    timer period never shows the "Keep your face in the frame!" warning:
    it shows the face-lost notice, the completion notice, or
    "Scanning... N% complete". *)
Theorem keep_face_warning_never_shown
    (D now : Z) (r : Outcome unit) (st0 : State) (evs : list Event) (t : Tick) :
  faceDetected st0 = true ->
  let st := run D evs (startScan D now r st0) in
  let st' := poll_tick D t st in
  faceDetected_captured st = true /\
  (message st' = MsgFaceLost \/ message st' = MsgScanComplete \/
   exists n, message st' = MsgScanningComplete n).
Proof.
  intro Hface. cbv zeta.
  assert (Hcap : faceDetected_captured (run D evs (startScan D now r st0)) = true).
  { rewrite run_keeps_captured. unfold startScan. rewrite Hface. simpl.
    destruct r; simpl; exact Hface. }
  split; [exact Hcap|].
  set (st := run D evs (startScan D now r st0)) in *.
  unfold poll_tick. destruct (face_lost (t_now t) st).
  - left. unfold restart.
    destruct (t_reset t); [destruct (t_start t)|]; reflexivity.
  - destruct (t_status t) as [sd|]; simpl on_status.
    + unfold on_status_ok, scanning_message. cbv zeta. simpl faceDetected_captured.
      rewrite Hcap.
      destruct (_ >=? _);
        [|destruct (String.eqb _ "complete"); [|destruct (_ && _)]];
        simpl; eauto.
    + unfold on_status_throw, scanning_message. cbv zeta. simpl faceDetected_captured.
      rewrite Hcap.
      destruct (_ && _); [auto|].
      destruct (_ >=? _); simpl; eauto.
Qed.

Lemma keep_face_warning_never_shown_witness :
  let st := run 45 [EvFrame 4900 true true; EvFrame 5900 true false] started45 in
  let st' := poll_tick 45 (tick_at 6000 (Ok (status_body "running" None))) st in
  faceDetected st = false /\
  faceDetected_captured st = true /\
  (message st' = MsgFaceLost \/ message st' = MsgScanComplete \/
   exists n, message st' = MsgScanningComplete n).
Proof.
  cbv zeta. split; [reflexivity|].
  apply (keep_face_warning_never_shown 45 0 (Ok tt)
           (onFaceResults 0 true true (initCamera (Ok tt) (mount 0)))
           [EvFrame 4900 true true; EvFrame 5900 true false]
           (tick_at 6000 (Ok (status_body "running" None)))).
  reflexivity.
Defined.

(** ** Starting, failing to start, retrying *)

(** X8.  A start request that fails surfaces the error and registers no
    interval: with none registered before, no later frame or timer period
    sends anything. *)
Theorem failed_start_never_polls
    (D now : Z) (st : State) (evs : list Event) :
  faceDetected st = true ->
  pollIntervalRef st = false ->
  let st' := startScan D now Throw st in
  phase st' = Error /\ error st' = Some ErrStartFailed /\
  scanning st' = false /\ scanStartedRef st' = false /\
  pollIntervalRef st' = false /\
  calls (run D evs st') = calls st ++ [ApiStartScan "pos" D].
Proof.
  intros Hface Hstop. cbv zeta. unfold startScan. rewrite Hface. simpl negb.
  cbv iota.
  assert (Hstop' : pollIntervalRef (startScan_resume Throw (startScan_begin D now st))
                   = false) by exact Hstop.
  rewrite (run_stopped_calls D evs _ Hstop').
  repeat split. exact Hstop.
Qed.

Lemma failed_start_never_polls_witness :
  let st := onFaceResults 0 true true (initCamera (Ok tt) (mount 0)) in
  let st' := startScan 45 100 Throw st in
  phase st' = Error /\ error st' = Some ErrStartFailed /\
  scanning st' = false /\ scanStartedRef st' = false /\
  pollIntervalRef st' = false /\
  calls (run 45 [EvTick (tick_at 600 Throw); EvTick (tick_at 1100 Throw)] st')
    = calls st ++ [ApiStartScan "pos" 45].
Proof.
  cbv zeta.
  apply (failed_start_never_polls 45 100
           (onFaceResults 0 true true (initCamera (Ok tt) (mount 0)))
           [EvTick (tick_at 600 Throw); EvTick (tick_at 1100 Throw)]).
  - reflexivity.
  - reflexivity.
Defined.

(** X9.  Retry followed by Start, with a face in the frame, gives a fresh scan
    whatever state the component was left in and whether or not the reset
    went through: no error, progress 0, failure counter 0, and a start time
    taken anew, so that time-based progress counts from the new start. *)
Theorem retry_then_start_is_fresh
    (D now : Z) (r : Outcome unit) (st : State) (t : Tick) :
  faceDetected st = true ->
  let st' := startScan D now (Ok tt) (handleRetry r st) in
  scanning st' = true /\ progress st' = 0%Q /\ error st' = None /\
  consecutiveErrors st' = 0 /\ scanStartTime st' = now /\
  scanStartedRef st' = true /\ pollIntervalRef st' = true /\
  phase st' = Running /\
  calls st' = calls st ++ [ApiReset; ApiStartScan "pos" D] /\
  (face_lost (t_now t) st' = false -> t_status t = Throw ->
   t_now t - now < D * 1000 ->
   progress (poll_tick D t st') = timeBasedProgress D (t_now t - now)).
Proof.
  intro Hface. cbv zeta.
  assert (Hf : faceDetected (handleRetry r st) = true)
    by (destruct r; exact Hface).
  unfold startScan. rewrite Hf. simpl negb. cbv iota.
  repeat apply conj; try reflexivity.
  - destruct r; simpl; rewrite <- app_assoc; reflexivity.
  - intros Hlost Hthrow Hbefore.
    rewrite poll_tick_throw_absorbed; try assumption.
    + unfold scanning_message. simpl.
      destruct (faceDetected (handleRetry r st)); reflexivity.
    + left. simpl. lia.
Qed.

Lemma retry_then_start_is_fresh_witness :
  let failed := poll_tick 45 (tick_at 10000 (Ok (status_body "error" None)))
                  (run 45 [EvFrame 9900 true true] started45) in
  let st' := startScan 45 20000 (Ok tt) (handleRetry Throw failed) in
  phase failed = Error /\
  scanning st' = true /\ progress st' = 0%Q /\ error st' = None /\
  consecutiveErrors st' = 0 /\ scanStartTime st' = 20000 /\
  phase st' = Running.
Proof.
  cbv zeta. split; [reflexivity|].
  destruct (retry_then_start_is_fresh 45 20000 Throw
              (poll_tick 45 (tick_at 10000 (Ok (status_body "error" None)))
                 (run 45 [EvFrame 9900 true true] started45))
              (tick_at 20500 Throw) eq_refl)
    as (H1 & H2 & H3 & H4 & H5 & _ & _ & H8 & _).
  repeat split; assumption.
Defined.

(** ** Presence and the restart *)

(** X10.  A sighting, and likewise a restart, opens a window of 3000 ms during
    which no timer period restarts the scan: after a frame with a face at
    [now], no period up to [now + 3000] finds the face lost; after a
    restart, none up to 3000 ms past the end of that restart does, even if
    no face has come back. *)
Theorem restart_grace_window (D now : Z) (t t2 : Tick) (st : State) :
  (t_now t2 <= now + 3000 ->
   face_lost (t_now t2) (onFaceResults now true true st) = false) /\
  (face_lost (t_now t) st = true ->
   t_now t2 <= t_later t + 3000 ->
   face_lost (t_now t2) (poll_tick D t st) = false).
Proof.
  split.
  - intro Hle. apply face_lost_recent. simpl. lia.
  - intros Hlost Hle. apply face_lost_recent.
    destruct (restart_frame D t st Hlost) as (_ & _ & _ & _ & _ & _ & Hseen).
    rewrite Hseen. lia.
Qed.

Lemma restart_grace_window_witness :
  let st := run 45 [EvFrame 6900 true true] started45 in
  let t := tick_at 10000 Throw in
  face_lost 12000 (onFaceResults 9500 true true st) = false /\
  face_lost 13000 (poll_tick 45 t st) = false.
Proof.
  cbv zeta.
  destruct (restart_grace_window 45 9500 (tick_at 10000 Throw)
              (tick_at 12000 Throw)
              (run 45 [EvFrame 6900 true true] started45)) as [H1 _].
  destruct (restart_grace_window 45 9500 (tick_at 10000 Throw)
              (tick_at 13000 Throw)
              (run 45 [EvFrame 6900 true true] started45)) as [_ H2].
  split.
  - apply H1. vm_compute. congruence.
  - apply H2; [reflexivity|vm_compute; congruence].
Defined.

(** X11.  A restart never ends the scan nor shows an error, also when its reset
    or its start request fails: scanning, error, interval and completion
    signal stay as they were and the display goes to 0.  The failure
    counter goes back to 0 only when both requests went through. *)
Theorem restart_swallows_failures (D : Z) (t : Tick) (st : State) :
  face_lost (t_now t) st = true ->
  let st' := poll_tick D t st in
  scanning st' = scanning st /\ error st' = error st /\
  phase st' = phase st /\
  pollIntervalRef st' = pollIntervalRef st /\
  onComplete_scheduled st' = onComplete_scheduled st /\
  progress st' = 0%Q /\ message st' = MsgFaceLost /\
  consecutiveErrors st' =
    match t_reset t, t_start t with
    | Ok _, Ok _ => 0
    | _, _ => consecutiveErrors st
    end.
Proof.
  intro Hlost. cbv zeta. unfold poll_tick. rewrite Hlost. unfold restart, phase.
  destruct (t_reset t); [destruct (t_start t)|]; repeat split.
Qed.

Lemma restart_swallows_failures_witness :
  let st := run 45 [EvFrame 6900 true true] started45 in
  let st' := poll_tick 45 (mkTick 10000 Throw Throw 10050 Throw) st in
  scanning st' = true /\ error st' = None /\ phase st' = Running /\
  pollIntervalRef st' = true /\ progress st' = 0%Q /\
  calls st' = calls st ++ [ApiReset].
Proof.
  cbv zeta.
  destruct (restart_swallows_failures 45 (mkTick 10000 Throw Throw 10050 Throw)
              (run 45 [EvFrame 6900 true true] started45) eq_refl)
    as (H1 & H2 & H3 & H4 & _ & H6 & _).
  rewrite H1, H2, H3, H4, H6. repeat split.
Defined.

(** ** The "Time remaining" line *)

Lemma Qfloor_nonneg (q : Q) : (0 <= q)%Q -> 0 <= Qfloor q.
Proof.
  intro H. change 0 with (Qfloor 0). apply Qfloor_resp_le. exact H.
Qed.

(** X13.  The remaining time shown is never negative, is at most the duration
    once progress is not negative, reaches 0 at 100 percent and beyond,
    and never goes up when progress goes up. *)
Theorem time_remaining_bounds (D : Z) (p p' : Q) :
  0 < D ->
  0 <= time_remaining D p /\
  ((0 <= p)%Q -> time_remaining D p <= D) /\
  ((100 <= p)%Q -> time_remaining D p = 0) /\
  ((p <= p')%Q -> time_remaining D p' <= time_remaining D p).
Proof.
  intro HD. unfold time_remaining.
  assert (HDq : (0 < inject_Z D)%Q) by (apply inject_Z_pos; exact HD).
  repeat apply conj.
  - apply Z.le_max_l.
  - intro Hp.
    assert (0 <= Qfloor (p / 100 * inject_Z D)).
    { apply Qfloor_nonneg. apply Qmult_le_0_compat.
      - unfold Qdiv. apply Qmult_le_0_compat; [exact Hp|discriminate].
      - apply Qlt_le_weak. exact HDq. }
    lia.
  - intro Hp.
    assert (D <= Qfloor (p / 100 * inject_Z D)).
    { rewrite <- (Qfloor_Z D) at 1. apply Qfloor_resp_le.
      rewrite <- (Qmult_1_l (inject_Z D)) at 1.
      apply Qmult_le_compat_r; [|apply Qlt_le_weak; exact HDq].
      apply Qle_shift_div_l; [reflexivity|]. rewrite Qmult_1_l. exact Hp. }
    lia.
  - intro Hle.
    assert (Qfloor (p / 100 * inject_Z D) <= Qfloor (p' / 100 * inject_Z D)).
    { apply Qfloor_resp_le.
      apply Qmult_le_compat_r; [|apply Qlt_le_weak; exact HDq].
      unfold Qdiv. apply Qmult_le_compat_r; [exact Hle|discriminate]. }
    lia.
Qed.

Lemma time_remaining_bounds_witness :
  0 <= time_remaining 45 (70 # 3) /\
  time_remaining 45 (70 # 3) <= 45 /\
  time_remaining 45 100 = 0 /\
  time_remaining 45 100 <= time_remaining 45 (70 # 3).
Proof.
  destruct (time_remaining_bounds 45 (70 # 3) 100 eq_refl) as (H1 & H2 & _ & H4).
  destruct (time_remaining_bounds 45 100 100 eq_refl) as (_ & _ & H3 & _).
  split; [|split; [|split]].
  - exact H1.
  - apply H2. discriminate.
  - apply H3. discriminate.
  - apply H4. discriminate.
Defined.

(** X14.  While the display is the time-based progress, before 99 percent
    of a duration of at most a day and off the whole seconds, the remaining
    time shown is the duration minus the whole seconds elapsed.  On a whole
    second the quotient is an integer, where the rounding of the divisions
    can show one second more; those instants are left out. *)
Theorem time_remaining_of_elapsed (D e : Z) :
  0 < D -> D <= 86400 -> 0 <= e -> e <= 990 * D -> e mod 1000 <> 0 ->
  time_remaining D (timeBasedProgress D e) = D - e / 1000.
Proof.
  intros HD _ He Hcap _. unfold time_remaining.
  assert (HDq : (0 < inject_Z D)%Q) by (apply inject_Z_pos; exact HD).
  assert (Hratio : (inject_Z e / inject_Z (D * 1000) * 100 <= 99)%Q).
  { rewrite inject_Z_mult.
    assert (H : (inject_Z e <= inject_Z (990 * D))%Q)
      by (rewrite <- Zle_Qle; exact Hcap).
    rewrite inject_Z_mult in H.
    change (inject_Z 990) with 990%Q in H. change (inject_Z 1000) with 1000%Q.
    assert (Hx : (inject_Z e / (inject_Z D * 1000) <= 99 # 100)%Q).
    { apply Qle_shift_div_r; lra. }
    set (x := (inject_Z e / (inject_Z D * 1000))%Q) in *. lra. }
  assert (Heq : (timeBasedProgress D e / 100 * inject_Z D == e # 1000)%Q).
  { unfold timeBasedProgress. rewrite (Q.min_l _ _ Hratio).
    rewrite inject_Z_mult.
    assert (Hm : (e # 1000 == inject_Z e / inject_Z 1000)%Q).
    { rewrite (Qmake_Qdiv e 1000). reflexivity. }
    rewrite Hm. field.
    intro H0. rewrite H0 in HDq. discriminate. }
  rewrite Heq. change (Qfloor (e # 1000)) with (e / 1000).
  assert (e / 1000 <= 990 * D / 1000) by (apply Z.div_le_mono; lia).
  assert (990 * D / 1000 < D).
  { apply Z.div_lt_upper_bound; lia. }
  lia.
Qed.

Lemma time_remaining_of_elapsed_witness :
  time_remaining 45 (timeBasedProgress 45 10500) = 45 - 10500 / 1000.
Proof.
  apply (time_remaining_of_elapsed 45 10500).
  - reflexivity.
  - vm_compute. congruence.
  - vm_compute. congruence.
  - vm_compute. congruence.
  - vm_compute. congruence.
Defined.

(** ** The face overlay *)

(** Folding further landmarks into finite accumulators keeps them finite,
    only widens them, and covers every landmark folded in. *)
Lemma fold_extend_finite (W H : Z) (lms : list FaceOverlay.Landmark) :
  forall mx my Mx My : Q,
  exists mx' my' Mx' My' : Q,
    fold_left (FaceOverlay.extend W H) lms
      (FaceOverlay.mkExtent (FaceOverlay.Fin mx) (FaceOverlay.Fin my) Mx My)
    = FaceOverlay.mkExtent (FaceOverlay.Fin mx') (FaceOverlay.Fin my') Mx' My' /\
    (mx' <= mx /\ my' <= my /\ Mx <= Mx' /\ My <= My')%Q /\
    forall lm, In lm lms ->
      (mx' <= FaceOverlay.lm_x lm * inject_Z W <= Mx' /\
       my' <= FaceOverlay.lm_y lm * inject_Z H <= My')%Q.
Proof.
  induction lms as [|lm0 lms IH]; intros mx my Mx My.
  - exists mx, my, Mx, My. split; [reflexivity|]. split.
    + repeat split; apply Qle_refl.
    + intros lm [].
  - cbn [fold_left]. unfold FaceOverlay.extend at 2. cbv zeta.
    cbn [FaceOverlay.minX FaceOverlay.minY FaceOverlay.maxX FaceOverlay.maxY
         FaceOverlay.Math_min].
    set (px := (FaceOverlay.lm_x lm0 * inject_Z W)%Q).
    set (py := (FaceOverlay.lm_y lm0 * inject_Z H)%Q).
    destruct (IH (Qmin mx px) (Qmin my py) (Qmax Mx px) (Qmax My py))
      as (mx' & my' & Mx' & My' & Heq & (B1 & B2 & B3 & B4) & Hin).
    exists mx', my', Mx', My'. split; [exact Heq|].
    pose proof (Q.le_min_l mx px). pose proof (Q.le_min_r mx px).
    pose proof (Q.le_min_l my py). pose proof (Q.le_min_r my py).
    pose proof (Q.le_max_l Mx px). pose proof (Q.le_max_r Mx px).
    pose proof (Q.le_max_l My py). pose proof (Q.le_max_r My py).
    split.
    + repeat split; eapply Qle_trans; eassumption.
    + intros lm [<-|Hlm].
      * fold px py. repeat split; eapply Qle_trans; eassumption.
      * apply Hin. exact Hlm.
Qed.

(** X15.  Without landmarks the box is degenerate: corner at infinity, width and
    height minus infinity.  With at least one landmark the box is finite,
    has non-negative width and height, contains every landmark scaled to
    the canvas, and, its maxima starting from 0, never ends left of or
    above the canvas origin. *)
Theorem bounding_box_contains_landmarks
    (lms : list FaceOverlay.Landmark) (W H : Z) :
  FaceOverlay.getFaceBoundingBox [] W H
    = FaceOverlay.mkBox FaceOverlay.PosInf FaceOverlay.PosInf
        FaceOverlay.NegInf FaceOverlay.NegInf /\
  (lms <> [] ->
   exists bx by_ bw bh : Q,
     FaceOverlay.getFaceBoundingBox lms W H
       = FaceOverlay.mkBox (FaceOverlay.Fin bx) (FaceOverlay.Fin by_)
           (FaceOverlay.Fin bw) (FaceOverlay.Fin bh) /\
     (0 <= bw /\ 0 <= bh /\ 0 <= bx + bw /\ 0 <= by_ + bh)%Q /\
     forall lm, In lm lms ->
       (bx <= FaceOverlay.lm_x lm * inject_Z W <= bx + bw /\
        by_ <= FaceOverlay.lm_y lm * inject_Z H <= by_ + bh)%Q).
Proof.
  split; [reflexivity|].
  intro Hne. destruct lms as [|lm0 lms]; [congruence|].
  set (px := (FaceOverlay.lm_x lm0 * inject_Z W)%Q).
  set (py := (FaceOverlay.lm_y lm0 * inject_Z H)%Q).
  destruct (fold_extend_finite W H lms px py (Qmax 0 px) (Qmax 0 py))
    as (mx & my & Mx & My & Heq & (B1 & B2 & B3 & B4) & Hin).
  assert (Hacc : fold_left (FaceOverlay.extend W H) (lm0 :: lms)
                   (FaceOverlay.mkExtent FaceOverlay.PosInf FaceOverlay.PosInf 0 0)
                 = FaceOverlay.mkExtent (FaceOverlay.Fin mx) (FaceOverlay.Fin my)
                     Mx My).
  { rewrite <- Heq. reflexivity. }
  unfold FaceOverlay.getFaceBoundingBox. cbv zeta. rewrite Hacc.
  cbn [FaceOverlay.minX FaceOverlay.minY FaceOverlay.maxX FaceOverlay.maxY
       FaceOverlay.minus].
  exists mx, my, (Mx - mx)%Q, (My - my)%Q. split; [reflexivity|].
  pose proof (Q.le_max_l 0 px). pose proof (Q.le_max_r 0 px).
  pose proof (Q.le_max_l 0 py). pose proof (Q.le_max_r 0 py).
  split.
  - repeat split; lra.
  - intros lm [<-|Hlm].
    + fold px py. repeat split; lra.
    + destruct (Hin lm Hlm) as [[? ?] [? ?]]. repeat split; lra.
Qed.

Lemma bounding_box_contains_landmarks_witness :
  let lms := [FaceOverlay.mkLandmark (1 # 4) (1 # 2);
              FaceOverlay.mkLandmark (3 # 4) (1 # 4)] in
  exists bx by_ bw bh : Q,
    FaceOverlay.getFaceBoundingBox lms 1280 720
      = FaceOverlay.mkBox (FaceOverlay.Fin bx) (FaceOverlay.Fin by_)
          (FaceOverlay.Fin bw) (FaceOverlay.Fin bh) /\
    (0 <= bw /\ 0 <= bh /\ 0 <= bx + bw /\ 0 <= by_ + bh)%Q /\
    forall lm, In lm lms ->
      (bx <= FaceOverlay.lm_x lm * inject_Z 1280 <= bx + bw /\
       by_ <= FaceOverlay.lm_y lm * inject_Z 720 <= by_ + bh)%Q.
Proof.
  cbv zeta.
  apply (proj2 (bounding_box_contains_landmarks
                  [FaceOverlay.mkLandmark (1 # 4) (1 # 2);
                   FaceOverlay.mkLandmark (3 # 4) (1 # 4)] 1280 720)).
  discriminate.
Defined.

(** The loop of [drawFaceMesh] runs to its end exactly when every index it
    reads is there; it then made one call per index, and whether it ends
    or not it only moves and draws lines. *)
Lemma trace_oval_spec (W H : Z) (lms : list FaceOverlay.Landmark)
    (indices : list nat) :
  forall first : bool,
  (snd (FaceOverlay.trace_oval first indices lms W H) = true <->
   Forall (fun k => (k < length lms)%nat) indices) /\
  (snd (FaceOverlay.trace_oval first indices lms W H) = true ->
   length (fst (FaceOverlay.trace_oval first indices lms W H)) = length indices) /\
  ~ In FaceOverlay.Stroke (fst (FaceOverlay.trace_oval first indices lms W H)).
Proof.
  induction indices as [|k rest IH]; intro first.
  - simpl. repeat split; auto.
  - cbn [FaceOverlay.trace_oval].
    destruct (nth_error lms k) as [point|] eqn:Hk.
    + destruct (IH false) as ((I1 & I2) & I3 & I4).
      destruct (FaceOverlay.trace_oval false rest lms W H) as [cmds fin].
      cbn [fst snd] in *.
      assert (Hlt : (k < length lms)%nat)
        by (apply nth_error_Some; congruence).
      repeat split.
      * intro Hfin. constructor; auto.
      * intro Hall. inversion Hall; subst. auto.
      * intro Hfin. cbn [length]. f_equal. auto.
      * intros [Hc|Hc]; [destruct first; discriminate|auto].
    + cbn [fst snd]. repeat split.
      * discriminate.
      * intro Hall. inversion Hall as [|? ? Hlt _]; subst.
        apply nth_error_None in Hk. lia.
      * discriminate.
      * intros [].
Qed.

(** X16.  [drawFaceMesh] completes exactly when there are more than 454
    landmarks.  It then begins a path, visits the 36 points of the face
    oval and closes and strokes the path; with fewer landmarks it throws
    before anything is stroked. *)
Theorem drawFaceMesh_needs_455_landmarks
    (lms : list FaceOverlay.Landmark) (W H : Z) :
  (snd (FaceOverlay.drawFaceMesh lms W H) = true <-> (454 < length lms)%nat) /\
  (snd (FaceOverlay.drawFaceMesh lms W H) = true ->
   exists cmds,
     fst (FaceOverlay.drawFaceMesh lms W H)
       = FaceOverlay.BeginPath :: cmds
           ++ [FaceOverlay.ClosePath; FaceOverlay.Stroke] /\
     length cmds = 36%nat) /\
  (snd (FaceOverlay.drawFaceMesh lms W H) = false ->
   ~ In FaceOverlay.Stroke (fst (FaceOverlay.drawFaceMesh lms W H))).
Proof.
  unfold FaceOverlay.drawFaceMesh.
  destruct (trace_oval_spec W H lms FaceOverlay.FACE_OVAL true)
    as ((I1 & I2) & I3 & I4).
  destruct (FaceOverlay.trace_oval true FaceOverlay.FACE_OVAL lms W H)
    as [cmds fin].
  cbn [fst snd] in *.
  assert (Hoval : Forall (fun k => (k < length lms)%nat) FaceOverlay.FACE_OVAL
                  <-> (454 < length lms)%nat).
  { split.
    - intro Hall. rewrite Forall_forall in Hall. apply Hall.
      unfold FaceOverlay.FACE_OVAL. simpl. auto 12.
    - intro Hlen.
      assert (Hmax : Forall (fun k => (k <= 454)%nat) FaceOverlay.FACE_OVAL)
        by (unfold FaceOverlay.FACE_OVAL; repeat constructor; lia).
      eapply Forall_impl; [|exact Hmax]. intros k Hk. simpl in Hk. lia. }
  destruct fin; cbn [fst snd]; repeat split.
  - intros _. apply Hoval. auto.
  - intros _. exists cmds. split; [reflexivity|]. rewrite I3; reflexivity.
  - discriminate.
  - discriminate.
  - intro Hlen. apply I2. apply Hoval. exact Hlen.
  - discriminate.
  - intros _ [Hc|Hc]; [discriminate|auto].
Qed.

Lemma drawFaceMesh_needs_455_landmarks_witness :
  snd (FaceOverlay.drawFaceMesh
         (repeat (FaceOverlay.mkLandmark (1 # 2) (1 # 2)) 468) 1280 720) = true /\
  snd (FaceOverlay.drawFaceMesh
         (repeat (FaceOverlay.mkLandmark (1 # 2) (1 # 2)) 300) 1280 720) = false.
Proof.
  split.
  - apply (proj1 (drawFaceMesh_needs_455_landmarks
                    (repeat (FaceOverlay.mkLandmark (1 # 2) (1 # 2)) 468)
                    1280 720)).
    rewrite repeat_length. lia.
  - destruct (snd (FaceOverlay.drawFaceMesh
                     (repeat (FaceOverlay.mkLandmark (1 # 2) (1 # 2)) 300)
                     1280 720)) eqn:E; [|reflexivity].
    apply (proj1 (drawFaceMesh_needs_455_landmarks
                    (repeat (FaceOverlay.mkLandmark (1 # 2) (1 # 2)) 300)
                    1280 720)) in E.
    rewrite repeat_length in E. lia.
Defined.

(** ** The user information form *)

Lemma rejected_false (v : option Q) (lo hi : Q) :
  Step1.rejected v lo hi = false <->
  exists q, v = Some q /\ (lo <= q <= hi)%Q.
Proof.
  unfold Step1.rejected. destruct v as [q|].
  - rewrite orb_false_iff, !Qlt_bool_false. split.
    + intros [H1 H2]. exists q. auto.
    + intros (q' & Hq & H1 & H2). injection Hq as <-. auto.
  - split; [discriminate|]. intros (q & Hq & _). discriminate.
Qed.

Lemma validate_flag (st : Step1.State) :
  snd (Step1.validate st) = true <->
  Step1.rejected (Step1.age (Step1.form st)) 10 120 = false /\
  Step1.rejected (Step1.height_cm (Step1.form st)) 100 250 = false /\
  Step1.rejected (Step1.weight_kg (Step1.form st)) 20 300 = false.
Proof.
  unfold Step1.validate, Step1.validate_errs. cbn [snd].
  destruct (Step1.rejected (Step1.age (Step1.form st)) 10 120);
    destruct (Step1.rejected (Step1.height_cm (Step1.form st)) 100 250);
    destruct (Step1.rejected (Step1.weight_kg (Step1.form st)) 20 300);
    cbn; intuition discriminate.
Qed.

Lemma validate_keys (st : Step1.State) :
  let errs := Step1.errors (fst (Step1.validate st)) in
  (In "age"%string (map fst errs) <->
   Step1.rejected (Step1.age (Step1.form st)) 10 120 = true) /\
  (In "height_cm"%string (map fst errs) <->
   Step1.rejected (Step1.height_cm (Step1.form st)) 100 250 = true) /\
  (In "weight_kg"%string (map fst errs) <->
   Step1.rejected (Step1.weight_kg (Step1.form st)) 20 300 = true).
Proof.
  unfold Step1.validate, Step1.validate_errs. cbn [fst Step1.errors].
  destruct (Step1.rejected (Step1.age (Step1.form st)) 10 120);
    destruct (Step1.rejected (Step1.height_cm (Step1.form st)) 100 250);
    destruct (Step1.rejected (Step1.weight_kg (Step1.form st)) 20 300);
    cbn; intuition discriminate.
Qed.

(** X17.  [validate] accepts a form exactly when all three numbers are filled in
    and within their ranges, bounds included: age 10 to 120, height 100 to
    250, weight 20 to 300.  The errors it sets name exactly the fields that
    fail, and the form itself is left as typed. *)
Theorem validate_accepts_exactly (st : Step1.State) :
  let f := Step1.form st in
  let st' := fst (Step1.validate st) in
  (snd (Step1.validate st) = true <->
   exists a h w,
     Step1.age f = Some a /\ Step1.height_cm f = Some h /\
     Step1.weight_kg f = Some w /\
     (10 <= a <= 120)%Q /\ (100 <= h <= 250)%Q /\ (20 <= w <= 300)%Q) /\
  (In "age"%string (map fst (Step1.errors st')) <->
   Step1.rejected (Step1.age f) 10 120 = true) /\
  (In "height_cm"%string (map fst (Step1.errors st')) <->
   Step1.rejected (Step1.height_cm f) 100 250 = true) /\
  (In "weight_kg"%string (map fst (Step1.errors st')) <->
   Step1.rejected (Step1.weight_kg f) 20 300 = true) /\
  Step1.form st' = f /\ Step1.effects st' = Step1.effects st.
Proof.
  cbv zeta.
  destruct (validate_flag st) as [Hflag1 Hflag2].
  destruct (validate_keys st) as (Ka & Kh & Kw).
  split; [|split; [exact Ka|split; [exact Kh|split; [exact Kw|split; reflexivity]]]].
  split.
  - intro Hv. destruct (Hflag1 Hv) as (Ra & Rh & Rw).
    apply rejected_false in Ra, Rh, Rw.
    destruct Ra as (a & Ea & Ra). destruct Rh as (h & Eh & Rh).
    destruct Rw as (w & Ew & Rw). exists a, h, w. auto 10.
  - intros (a & h & w & Ea & Eh & Ew & Ra & Rh & Rw).
    apply Hflag2. repeat split; apply rejected_false; eauto.
Qed.

(** X18.  [handleSubmit] sends the metadata only for a form that [validate]
    accepts, and then exactly once; it moves on to the scan only when that
    request went through and alerts when it failed; either way the loading
    flag is off again at the end.  A rejected form sends nothing, moves
    nowhere and leaves the loading flag alone. *)
Theorem handleSubmit_effects (r : Outcome unit) (st : Step1.State) :
  let st' := Step1.handleSubmit r st in
  (snd (Step1.validate st) = false ->
   Step1.effects st' = Step1.effects st /\ Step1.loading st' = Step1.loading st) /\
  (snd (Step1.validate st) = true ->
   Step1.effects st' =
     Step1.effects st ++
       [Step1.ApiSetMetadata (Step1.form st);
        match r with Ok _ => Step1.OnNext | Throw => Step1.Alert end] /\
   Step1.loading st' = false) /\
  (In Step1.OnNext (Step1.effects st') ->
   In Step1.OnNext (Step1.effects st) \/
   (snd (Step1.validate st) = true /\ exists u, r = Ok u)) /\
  Step1.form st' = Step1.form st /\
  Step1.errors st' = Step1.validate_errs (Step1.form st).
Proof.
  cbv zeta. unfold Step1.handleSubmit.
  destruct (Step1.validate st) as [st1 valid] eqn:Hv.
  unfold Step1.validate in Hv. injection Hv as <- <-.
  cbn [snd].
  destruct (Nat.eqb (length (Step1.validate_errs (Step1.form st))) 0);
    cbn [negb]; cbv iota.
  - repeat apply conj; try discriminate; try reflexivity.
    + intros _. destruct r; cbn; rewrite <- app_assoc; auto.
    + destruct r as [u|]; cbn; intro Hin.
      * right. split; [reflexivity|]. exists u. reflexivity.
      * left. rewrite <- app_assoc in Hin. apply in_app_or in Hin.
        destruct Hin as [Hin|Hin]; [exact Hin|].
        repeat destruct Hin as [Hin|Hin]; try discriminate; contradiction.
    + destruct r; reflexivity.
    + destruct r; reflexivity.
  - repeat apply conj; try discriminate; try reflexivity.
    + intros _. auto.
    + cbn. auto.
Qed.

Lemma handleSubmit_effects_witness :
  let blank := Step1.mkState (Step1.mkForm None "male" None None) [] false [] in
  let filled := Step1.mkState
                  (Step1.mkForm (Some 30%Q) "male" (Some 175%Q) (Some 70%Q))
                  [] false [] in
  (Step1.effects (Step1.handleSubmit (Ok tt) blank) = [] /\
   Step1.loading (Step1.handleSubmit (Ok tt) blank) = false) /\
  (Step1.effects (Step1.handleSubmit (Ok tt) filled) =
     [Step1.ApiSetMetadata (Step1.form filled); Step1.OnNext] /\
   Step1.loading (Step1.handleSubmit (Ok tt) filled) = false).
Proof.
  cbv zeta. split.
  - apply (proj1 (handleSubmit_effects (Ok tt)
                    (Step1.mkState (Step1.mkForm None "male" None None)
                       [] false []))).
    reflexivity.
  - apply (proj1 (proj2 (handleSubmit_effects (Ok tt)
                    (Step1.mkState
                       (Step1.mkForm (Some 30%Q) "male" (Some 175%Q) (Some 70%Q))
                       [] false [])))).
    reflexivity.
Defined.

(** ** The headless poll loop *)

(** X19.  The headless scan signals completion only after a status request
    resolved with "complete": over any sequence of timer periods, whatever
    the clock says, a completion that was not there before comes with such
    a period. *)
Theorem headless_completes_only_on_report (ts : list Tick) :
  forall st : Headless.State,
  Headless.onComplete_scheduled st = false ->
  Headless.onComplete_scheduled (Headless.run ts st) = true ->
  exists t sd, In t ts /\ t_status t = Ok sd /\ status sd = "complete"%string.
Proof.
  induction ts as [|t ts IH]; intros st Hnot Hdone.
  - simpl in Hdone. congruence.
  - cbn [Headless.run] in Hdone.
    destruct (Headless.onComplete_scheduled (Headless.fire t st)) eqn:Hfire.
    + unfold Headless.fire in Hfire.
      destruct (Headless.pollIntervalRef st); [|congruence].
      destruct (headless_tick_completion t st Hfire) as [Hc|(sd & Hok & Hs)];
        [congruence|].
      exists t, sd. simpl. auto.
    + destruct (IH _ Hfire Hdone) as (t' & sd & Hin & Hok & Hs).
      exists t', sd. simpl. auto.
Qed.

Lemma headless_completes_only_on_report_witness :
  exists t sd,
    In t [tick_at 500 (Ok (status_body "running" (Some 10%Q)));
          tick_at 1000 (Ok (status_body "complete" (Some 100%Q)))] /\
    t_status t = Ok sd /\ status sd = "complete"%string.
Proof.
  apply (headless_completes_only_on_report
           [tick_at 500 (Ok (status_body "running" (Some 10%Q)));
            tick_at 1000 (Ok (status_body "complete" (Some 100%Q)))]
           headless_started45).
  - reflexivity.
  - reflexivity.
Defined.

(** X20.  The headless scan has no time limit of its own: as long as every
    status request resolves with a status other than "complete" and
    "error", it keeps scanning and polling without error, one status
    request per period, however late the clock. *)
Theorem headless_polls_until_told (ts : list Tick) :
  forall st : Headless.State,
  Headless.pollIntervalRef st = true ->
  Forall (fun t => exists sd, t_status t = Ok sd /\
                     String.eqb (status sd) "complete" = false /\
                     String.eqb (status sd) "error" = false) ts ->
  let st' := Headless.run ts st in
  Headless.pollIntervalRef st' = true /\
  Headless.scanning st' = Headless.scanning st /\
  Headless.error st' = Headless.error st /\
  Headless.onComplete_scheduled st' = Headless.onComplete_scheduled st /\
  Headless.calls st' = Headless.calls st ++ repeat ApiGetStatus (length ts).
Proof.
  induction ts as [|t ts IH]; intros st Hpoll Hall.
  - simpl. rewrite app_nil_r. auto.
  - inversion Hall as [|? ? (sd & Hok & Hc & He) Hrest]; subst.
    cbn [Headless.run length repeat]. cbv zeta.
    assert (Hfire : Headless.fire t st =
              Headless.setMessage
                (Headless.status_message sd (or_zero (progress_percent sd)))
                (Headless.setProgress (or_zero (progress_percent sd))
                  (Headless.call ApiGetStatus st))).
    { unfold Headless.fire. rewrite Hpoll. unfold Headless.poll_tick.
      rewrite Hok. cbv zeta. rewrite Hc, He. reflexivity. }
    rewrite Hfire.
    match goal with |- context [Headless.run ts ?s] =>
      destruct (IH s Hpoll Hrest) as (G1 & G2 & G3 & G4 & G5)
    end.
    rewrite G2, G3, G4, G5. simpl. rewrite <- app_assoc. auto.
Qed.

Lemma headless_polls_until_told_witness :
  let ts := [tick_at 50000 (Ok (status_body "running" (Some 97%Q)));
             tick_at 90000 (Ok (status_body "running" (Some 97%Q)))] in
  let st' := Headless.run ts headless_started45 in
  Headless.pollIntervalRef st' = true /\
  Headless.scanning st' = Headless.scanning headless_started45 /\
  Headless.error st' = Headless.error headless_started45 /\
  Headless.onComplete_scheduled st' = Headless.onComplete_scheduled headless_started45 /\
  Headless.calls st' = Headless.calls headless_started45 ++ repeat ApiGetStatus 2.
Proof.
  cbv zeta.
  apply (headless_polls_until_told
           [tick_at 50000 (Ok (status_body "running" (Some 97%Q)));
            tick_at 90000 (Ok (status_body "running" (Some 97%Q)))]
           headless_started45).
  - reflexivity.
  - repeat constructor; eexists; repeat split.
Defined.
